(** * BEAST data model for the M31 PHAT example ([datamodel.py])

    A shallow embedding of [beast/examples/phat_small/datamodel.py]: the
    module-level configuration and the class [GenFluxCatalog] with its
    methods [__init__], [getFlux] and [setFilters], followed by the
    properties of the catalog adapter.

    Python objects are mutable, so the methods are written in a state and
    exception monad over the instance [self] and the outside world (the
    catalog files, the Vega reference file and the trace of accesses to
    it).  numpy's float64 values are Rocq's primitive binary64 floats. *)

From Stdlib Require Import ZArith String Ascii PrimFloat.
From stdpp Require Import base option list gmap strings.

Set Warnings "-inexact-float".
Local Open Scope Z_scope.

(** ** Exceptions and the monad of method bodies *)

Inductive exn : Type :=
  | IOError (what : string)
  | KeyError (key : string)
  | IndexError (index : Z)
  | ValueError
  | AttributeError (name : string).

Inductive result (A : Type) : Type :=
  | Ok (a : A)
  | Raise (e : exn).
Arguments Ok {A} a.
Arguments Raise {A} e.

(** A computation reads and writes a state [S]; what it wrote before an
    exception was raised stays written, as in Python. *)
Definition M (S A : Type) : Type := S → result A * S.

Definition M_ret_def {S A} (a : A) : M S A := λ s, (Ok a, s).

Definition M_bind_def {S A B} (f : A → M S B) (m : M S A) : M S B :=
  λ s, match m s with
       | (Ok a, s') => f a s'
       | (Raise e, s') => (Raise e, s')
       end.

#[global] Instance M_ret {S} : MRet (M S) := @M_ret_def S.
#[global] Instance M_bind {S} : MBind (M S) := @M_bind_def S.

Definition raise {S A} (e : exn) : M S A := λ s, (Raise e, s).

Definition lift_result {S A} (r : result A) : M S A := λ s, (r, s).

Definition gets {S A} (f : S → A) : M S A := λ s, (Ok (f s), s).

Definition modify {S} (f : S → S) : M S unit := λ s, (Ok tt, f s).

(** [[body x for x in l]]: the elements are evaluated from left to right
    and the first exception ends the comprehension. *)
Fixpoint comprehension {S A B} (body : A → M S B) (l : list A) : M S (list B) :=
  match l with
  | [] => mret []
  | x :: l' => y ← body x; ys ← comprehension body l'; mret (y :: ys)
  end.

(** [for ik, k in enumerate(l): body], counting from [ik]. *)
Fixpoint for_enumerate {T A} (body : nat → A → M T unit) (ik : nat) (l : list A)
  : M T unit :=
  match l with
  | [] => mret tt
  | k :: l' => body ik k ;; for_enumerate body (S ik) l'
  end.

(** [with enter() as v: body]: when [enter] raises, neither the body nor
    [exit] runs; once entered, [exit] runs whether the body returns or
    raises, and an exception of the body is raised again after it. *)
Definition with_ {S H A} (enter : M S H) (exit : H → M S unit) (body : H → M S A)
  : M S A :=
  λ s, match enter s with
       | (Raise e, s1) => (Raise e, s1)
       | (Ok v, s1) =>
           match body v s1 with
           | (Ok a, s2) =>
               match exit v s2 with
               | (Ok _, s3) => (Ok a, s3)
               | (Raise e, s3) => (Raise e, s3)
               end
           | (Raise e, s2) =>
               match exit v s2 with
               | (Ok _, s3) => (Raise e, s3)
               | (Raise e', s3) => (Raise e', s3)
               end
           end
       end.

(** [l[i]] on a Python list, for an index that is not negative. *)
Definition list_getitem {A} (l : list A) (i : nat) : result A :=
  match l !! i with
  | Some x => Ok x
  | None => Raise (IndexError (Z.of_nat i))
  end.

(** ** Python values, for the argument [units] *)

Inductive pyval : Type :=
  | PyNone
  | PyBool (b : bool)
  | PyInt (z : Z)
  | PyFloat (f : float)
  | PyStr (s : string).

(** [v is True]: identity with the singleton [True]. *)
Definition is_True (v : pyval) : bool :=
  match v with
  | PyBool true => true
  | _ => false
  end.

(** [bool(v)], the truth value Python gives [v] in a condition. *)
Definition truthy (v : pyval) : bool :=
  match v with
  | PyNone => false
  | PyBool b => b
  | PyInt z => negb (z =? 0)
  | PyFloat f => negb (PrimFloat.eqb f 0)
  | PyStr s => negb (String.eqb s "")
  end.

(** ** numpy arrays of rank one *)

Module np.

(** [a * b] on arrays of shapes [(n,)] and [(m,)]: elementwise for
    [n = m], a single element is broadcast, other shapes do not match. *)
Definition multiply (a b : list float) : result (list float) :=
  if (length a =? length b)%nat then Ok (zip_with PrimFloat.mul a b)
  else match a, b with
       | _, [y] => Ok (map (λ x, PrimFloat.mul x y) a)
       | [x], _ => Ok (map (PrimFloat.mul x) b)
       | _, _ => Raise ValueError
       end.

End np.

(** ** Quantities of [beast.external.ezunits] *)

(** Modelled from the spec: the unit-handling library [ezunits] is not
    part of this file.  A value multiplied by [unit[u]] is the same value
    wrapped with the unit tag [u]. *)
Record Quantity (A : Type) : Type := mkQuantity { magnitude : A; units : string }.
Arguments mkQuantity {A} magnitude units.
Arguments magnitude {A} q.
Arguments units {A} q.

Definition mul_unit {A} (x : A) (u : string) : Quantity A := mkQuantity x u.

(** What [getFlux] returns: an array, or an array in a unit capsule. *)
Inductive flux_result : Type :=
  | Plain (flux : list float)
  | WithUnit (flux : Quantity (list float)).

(** ** The catalog table behind [Observations.data] *)

Module Table.

Abbreviation row := (gmap string float).

(** Modelled from the spec: the table type of the [Observations] base
    class is not part of this file.  A table has one row per star, its
    columns are addressed by name, and it carries an alias table from
    canonical names to column names. *)
Record t : Type := mk { rows : list row; aliases : gmap string string }.

(** Modelled from the spec: [table[num]], the row at a zero-based index
    with [0 <= num < row_count], else an out-of-range error. *)
Definition getitem (tab : t) (num : Z) : result row :=
  if (0 <=? num) && (num <? Z.of_nat (length (rows tab)))
  then match rows tab !! Z.to_nat num with
       | Some d => Ok d
       | None => Raise (IndexError num)
       end
  else Raise (IndexError num).

(** Modelled from the spec: [table.resolve_alias(name)], the column the
    name is an alias of; a name that is not aliased is a lookup error. *)
Definition resolve_alias (tab : t) (name : string) : result string :=
  match aliases tab !! name with
  | Some col => Ok col
  | None => Raise (KeyError name)
  end.

(** Modelled from the spec: [table.set_alias(alias, colname)]
    establishes the alias, replacing an earlier one of the same name. *)
Definition set_alias (tab : t) (alias colname : string) : t :=
  mk (rows tab) (<[alias := colname]> (aliases tab)).

(** Modelled from the spec: [d[colname]] on a row; a column the row does
    not have is the catalog's lookup error. *)
Definition row_getitem (d : row) (colname : string) : result float :=
  match d !! colname with
  | Some x => Ok x
  | None => Raise (KeyError colname)
  end.

End Table.

(** ** The world outside the instance *)

Inductive event : Type :=
  | VegaOpen
  | VegaQuery (names : list string)
  | VegaClose.

(** One entry of the Vega reference file: the effective wavelength and the
    flux of Vega through a filter. *)
Record vega_entry : Type := mkVega { vega_lamb : float; vega_fnu : float }.

Record World : Type := mkWorld {
  catalog_files : gmap string Table.t;
  vega_file : option (gmap string vega_entry);
  vega_open : nat;
  events : list event
}.

Definition log_event (e : event) (w : World) : World :=
  mkWorld (catalog_files w) (vega_file w) (vega_open w) (events w ++ [e]).

Definition set_vega_open (n : nat) (w : World) : World :=
  mkWorld (catalog_files w) (vega_file w) n (events w).

(** ** The Vega reference-flux loader *)

Module Vega.

Abbreviation handle := (gmap string vega_entry).

(** Modelled from the spec: [Vega.__enter__] is not part of this file.
    It opens the reference-data source; a missing source is a resource
    error.  The handle gives access to the parsed content. *)
Definition enter : M World handle :=
  λ w, match vega_file w with
       | None => (Raise (IOError "vega"), w)
       | Some db => (Ok db, log_event VegaOpen (set_vega_open (S (vega_open w)) w))
       end.

(** Modelled from the spec: [Vega.__exit__] closes the source and lets
    an exception of the body pass. *)
Definition exit (v : handle) : M World unit :=
  modify (λ w, log_event VegaClose (set_vega_open (Nat.pred (vega_open w)) w)).

Fixpoint lookup_all (v : handle) (names : list string) : result (list vega_entry) :=
  match names with
  | [] => Ok []
  | f :: names' =>
      match v !! f with
      | None => Raise (KeyError f)
      | Some e =>
          match lookup_all v names' with
          | Ok es => Ok (e :: es)
          | Raise x => Raise x
          end
      end
  end.

(** Modelled from the spec: [Vega.getFlux(filters)] looks all the
    filters up at once and returns the names, the fluxes and the
    wavelengths, one value per filter and in the order of [filters]; a
    name that is not in the reference database is a lookup error. *)
Definition getFlux (v : handle) (filters : list string)
  : M World (list string * list float * list float) :=
  modify (log_event (VegaQuery filters)) ;;
  es ← lift_result (lookup_all v filters);
  mret (filters, map vega_fnu es, map vega_lamb es).

End Vega.

(** ** User inputs of [datamodel.py] *)

Definition project : string := "beast_example_phat".

Definition filters : list string :=
  ["HST_WFC3_F275W"; "HST_WFC3_F336W"; "HST_ACS_WFC_F475W";
   "HST_ACS_WFC_F814W"; "HST_WFC3_F110W"; "HST_WFC3_F160W"]%string.

Definition basefilters : list string :=
  ["F275W"; "F336W"; "F475W"; "F814W"; "F110W"; "F160W"]%string.

(** [str.lower] on ASCII letters. *)
Definition lower_ascii (c : ascii) : ascii :=
  let n := nat_of_ascii c in
  if ((65 <=? n) && (n <=? 90))%nat then ascii_of_nat (n + 32) else c.

Fixpoint lower (s : string) : string :=
  match s with
  | EmptyString => EmptyString
  | String c s' => String (lower_ascii c) (lower s')
  end.

Definition obs_colnames : list string :=
  map (λ f, lower f +:+ "_rate")%string basefilters.

Definition obsfile : string := "data/b15_4band_det_27_A.fits".

Definition astfile : string := "data/fake_stars_b15_27_all.hd5".

Definition noisefile : string :=
  (project +:+ "/" +:+ project +:+ "_noisemodel.hd5")%string.

Definition distanceModulus : Quantity float := mul_unit 24.47%float "mag".

(** ** class GenFluxCatalog(Observations) *)

(** The attributes of an instance; [None] is an attribute that has not
    been assigned yet. *)
Record GenFluxCatalog : Type := mkCatalog {
  self_inputFile : option string;
  self_distanceModulus : option (Quantity float);
  self_desc : option string;
  self_data : option Table.t;
  self_filters : option (list string);
  self_vega_flux : option (list float);
  self_badvalue : option float
}.

Definition blank : GenFluxCatalog :=
  mkCatalog None None None None None None None.

Record St : Type := mkSt { self : GenFluxCatalog; world : World }.

Definition in_world {A} (m : M World A) : M St A :=
  λ st, match m (world st) with (r, w) => (r, mkSt (self st) w) end.

Definition on_self (f : GenFluxCatalog → GenFluxCatalog) : M St unit :=
  modify (λ st, mkSt (f (self st)) (world st)).

(** [self.name], an [AttributeError] when it was never assigned. *)
Definition getattr {A} (name : string) (field : GenFluxCatalog → option A) : M St A :=
  λ st, match field (self st) with
        | Some x => (Ok x, st)
        | None => (Raise (AttributeError name), st)
        end.

Definition set_data (tab : Table.t) (o : GenFluxCatalog) : GenFluxCatalog :=
  mkCatalog (self_inputFile o) (self_distanceModulus o) (self_desc o) (Some tab)
            (self_filters o) (self_vega_flux o) (self_badvalue o).

Definition set_filters (fs : list string) (o : GenFluxCatalog) : GenFluxCatalog :=
  mkCatalog (self_inputFile o) (self_distanceModulus o) (self_desc o) (self_data o)
            (Some fs) (self_vega_flux o) (self_badvalue o).

Definition set_vega_flux (vf : list float) (o : GenFluxCatalog) : GenFluxCatalog :=
  mkCatalog (self_inputFile o) (self_distanceModulus o) (self_desc o) (self_data o)
            (self_filters o) (Some vf) (self_badvalue o).

Definition set_badvalue (x : float) (o : GenFluxCatalog) : GenFluxCatalog :=
  mkCatalog (self_inputFile o) (self_distanceModulus o) (self_desc o) (self_data o)
            (self_filters o) (self_vega_flux o) (Some x).

Definition set_header (file : string) (dm : Quantity float) (desc : string)
    (o : GenFluxCatalog) : GenFluxCatalog :=
  mkCatalog (Some file) (Some dm) (Some desc) (self_data o)
            (self_filters o) (self_vega_flux o) (self_badvalue o).

(** Modelled from the spec: [Observations.__init__] is not part of this
    file.  It keeps the file name, the distance modulus and the
    description, and loads the table of the catalog file; a file that
    cannot be read is a resource error. *)
Definition Observations_init (inputFile : string) (distanceModulus : Quantity float)
    (desc : string) : M St unit :=
  on_self (set_header inputFile distanceModulus desc) ;;
  files ← gets (λ st, catalog_files (world st));
  match files !! inputFile with
  | None => raise (IOError inputFile)
  | Some tab => on_self (set_data tab)
  end.

(** Modelled from the spec: [Observations.setBadValue] stores the
    sentinel on the catalog object. *)
Definition setBadValue (val : float) : M St unit := on_self (set_badvalue val).

Definition setFilters (filters : list string) : M St unit :=
  on_self (set_filters filters) ;;
  vega_flux ← with_ (in_world Vega.enter) (λ v, in_world (Vega.exit v))
                    (λ v, '(_, vega_flux, _) ← in_world (Vega.getFlux v filters);
                          mret vega_flux);
  on_self (set_vega_flux vega_flux).

(** The body of the loop of [__init__]:
    [self.data.set_alias(k, obs_colnames[ik])]. *)
Definition init_set_alias (ik : nat) (k : string) : M St unit :=
  data ← getattr "data" self_data;
  col ← lift_result (list_getitem obs_colnames ik);
  on_self (set_data (Table.set_alias data k col)).

Definition GenFluxCatalog_init (inputFile : string) (distanceModulus : Quantity float)
    (filters : list string) : M St unit :=
  let desc := ("GENERIC star: " +:+ inputFile)%string in
  Observations_init inputFile distanceModulus desc ;;
  setFilters filters ;;
  setBadValue 6e-40%float ;;
  for_enumerate init_set_alias 0%nat filters.

Definition getFlux (num : Z) (units : pyval) : M St flux_result :=
  data ← getattr "data" self_data;
  d ← lift_result (Table.getitem data num);
  fs ← getattr "filters" self_filters;
  raw ← comprehension
          (λ ok, data ← getattr "data" self_data;
                 col ← lift_result (Table.resolve_alias data ok);
                 lift_result (Table.row_getitem d col))
          fs;
  vega_flux ← getattr "vega_flux" self_vega_flux;
  flux ← lift_result (np.multiply raw vega_flux);
  if is_True units
  then mret (WithUnit (mul_unit flux "erg/s/cm**2/Angstrom"))
  else mret (Plain flux).

(** [GenFluxCatalog(inputFile, distanceModulus, filters)]: a new instance
    on which [__init__] has run. *)
Definition GenFluxCatalog_new (inputFile : string) (distanceModulus : Quantity float)
    (filters : list string) : M World GenFluxCatalog :=
  λ w, match GenFluxCatalog_init inputFile distanceModulus filters (mkSt blank w) with
       | (Ok _, st) => (Ok (self st), world st)
       | (Raise e, st) => (Raise e, world st)
       end.

Definition get_obscat (obsfile : string) (distanceModulus : Quantity float)
    (filters : list string) : M World GenFluxCatalog :=
  obs ← GenFluxCatalog_new obsfile distanceModulus filters;
  mret obs.

(** ** Vocabulary of the statements *)

Definition erg_unit : string := "erg/s/cm**2/Angstrom".

(** The columns a filter list reads in a row: each filter is aliased to a
    column the row has. *)
Definition reads (tab : Table.t) (d : Table.row) (fs : list string) (raw : list float)
  : Prop :=
  Forall2 (λ f x, ∃ col, Table.aliases tab !! f = Some col ∧ d !! col = Some x) fs raw.

(** One scoped use of the Vega source for the filters [fs]. *)
Definition vega_events (fs : list string) : list event :=
  [VegaOpen; VegaQuery fs; VegaClose].

Definition after_vega (fs : list string) (w : World) : World :=
  mkWorld (catalog_files w) (vega_file w) (vega_open w) (events w ++ vega_events fs).

(** What the reference file has for the filters [fs], in their order. *)
Definition vega_has (db : gmap string vega_entry) (fs : list string)
    (es : list vega_entry) : Prop :=
  Forall2 (λ f e, db !! f = Some e) fs es.

(** ** A small catalog to run the code on *)

Definition phat_row (r275 r336 r475 r814 r110 r160 : float) : Table.row :=
  list_to_map [("f275w_rate", r275); ("f336w_rate", r336); ("f475w_rate", r475);
               ("f814w_rate", r814); ("f110w_rate", r110); ("f160w_rate", r160)]%string.

Definition phat_rows : list Table.row :=
  [phat_row 0.002 0.004 0.03 0.05 0.07 0.06;
   phat_row 0.001 0.003 0.02 0.04 0.05 0.04;
   phat_row 0.005 0.008 0.06 0.09 0.08 0.07]%float.

Definition phat_vega : gmap string vega_entry :=
  list_to_map [("HST_WFC3_F275W", mkVega 2704 1.2e-9);
               ("HST_WFC3_F336W", mkVega 3355 3.3e-9);
               ("HST_ACS_WFC_F475W", mkVega 4747 5.3e-9);
               ("HST_ACS_WFC_F814W", mkVega 8057 3.4e-9);
               ("HST_WFC3_F110W", mkVega 11534 4.1e-10);
               ("HST_WFC3_F160W", mkVega 15369 1.5e-10)]%float%string.

Definition phat_world : World :=
  mkWorld {[ obsfile := Table.mk phat_rows ∅ ]} (Some phat_vega) 0 [].

(** The instance [get_obscat()] builds there, with the world after it. *)
Definition phat_st : St :=
  (GenFluxCatalog_init obsfile distanceModulus filters (mkSt blank phat_world)).2.

(** The same instance after [setFilters] with two of its filters. *)
Definition phat_two : list string := ["HST_WFC3_F275W"; "HST_ACS_WFC_F814W"]%string.

Definition phat_st2 : St := (setFilters phat_two phat_st).2.

(** The table of that instance, its first row and its Vega fluxes. *)
Definition phat_tab : Table.t :=
  Table.mk phat_rows
    (list_to_map [("HST_WFC3_F275W", "f275w_rate"); ("HST_WFC3_F336W", "f336w_rate");
                  ("HST_ACS_WFC_F475W", "f475w_rate"); ("HST_ACS_WFC_F814W", "f814w_rate");
                  ("HST_WFC3_F110W", "f110w_rate"); ("HST_WFC3_F160W", "f160w_rate")]%string).

Definition phat_d : Table.row := phat_row 0.002 0.004 0.03 0.05 0.07 0.06.

Definition phat_vf : list float := [1.2e-9; 3.3e-9; 5.3e-9; 3.4e-9; 4.1e-10; 1.5e-10]%float.

Definition phat_vf2 : list float := [1.2e-9; 3.4e-9]%float.

(** ** More worlds and states to run the code on *)

(** The same files without a Vega reference file. *)
Definition phat_world_novega : World :=
  mkWorld (catalog_files phat_world) None 0 [].

(** A catalog file whose only row has the column of the first filter. *)
Definition short_world : World :=
  mkWorld {[ obsfile := Table.mk [ {[ "f275w_rate"%string := 0.002%float ]} ] ∅ ]}
          (Some phat_vega) 0 [].

Definition short_st : St :=
  (GenFluxCatalog_init obsfile distanceModulus
     ["HST_WFC3_F275W"; "HST_WFC3_F336W"]%string (mkSt blank short_world)).2.

(** A filter the configuration does not name and the reference file does
    not have. *)
Definition f225w : string := "HST_WFC3_F225W".

(** [phat_st] after a [setFilters] that raised at its second filter. *)
Definition phat_st_failed : St :=
  (setFilters ["HST_WFC3_F275W"%string; f225w] phat_st).2.

(** The instance with two filters and the six Vega fluxes, with the
    six filters and one Vega flux, and with one filter and the six Vega
    fluxes. *)
Definition phat_st_2_6 : St := mkSt (set_filters phat_two (self phat_st)) (world phat_st).

Definition phat_st_6_1 : St :=
  mkSt (set_vega_flux [2%float] (self phat_st)) (world phat_st).

Definition phat_st_1_6 : St :=
  mkSt (set_filters ["HST_WFC3_F275W"%string] (self phat_st)) (world phat_st).

(** A reference file that has one filter more than the configuration. *)
Definition wide_vega : gmap string vega_entry :=
  <[ f225w := mkVega 2359 4.2e-9 ]> phat_vega.

Definition wide_world : World :=
  mkWorld (catalog_files phat_world) (Some wide_vega) 0 [].

(** The table and the row of [short_st]. *)
Definition short_d : Table.row := {[ "f275w_rate"%string := 0.002%float ]}.

Definition short_tab : Table.t :=
  Table.mk [short_d]
    (list_to_map [("HST_WFC3_F275W", "f275w_rate"); ("HST_WFC3_F336W", "f336w_rate")]%string).

(** * Properties *)

Ltac by_running := vm_compute; reflexivity.

Ltac by_deciding := apply (bool_decide_unpack _); vm_compute; exact I.

Ltac unfold_M :=
  unfold mbind, mret, M_bind, M_ret, M_bind_def, M_ret_def, getattr,
    lift_result, raise, gets, modify, on_self, in_world in *.

(** ** The monad: comprehensions that only read *)

Section comprehension.
Context {T A B : Type} (body : A → M T B).

Lemma comprehension_readonly (l : list A) (s : T) :
  (∀ x s0, (body x s0).2 = s0) → (comprehension body l s).2 = s.
Proof.
  intros Hbody. induction l as [|x l IH]; simpl; [done|].
  unfold_M. specialize (Hbody x s).
  destruct (body x s) as [[y|e] s1]; simpl in Hbody; subst s1; [|done].
  destruct (comprehension body l s) as [[ys|e] s2]; simpl in IH; by subst s2.
Qed.

Lemma comprehension_Forall2 (l : list A) (ys : list B) (s : T) :
  Forall2 (λ x y, body x s = (Ok y, s)) l ys →
  comprehension body l s = (Ok ys, s).
Proof.
  induction 1 as [|x y l ys Hx _ IH]; simpl; [done|].
  unfold_M. by rewrite Hx, IH.
Qed.
End comprehension.

(** ** getFlux *)

Lemma reads_exists tab d fs :
  Forall (λ f, ∃ col x, Table.aliases tab !! f = Some col ∧ d !! col = Some x) fs →
  ∃ raw, reads tab d fs raw.
Proof.
  induction 1 as [|f fs (col & x & Hcol & Hx) _ (raw & IH)].
  - exists []. constructor.
  - exists (x :: raw). constructor; eauto.
Qed.

Lemma getitem_in_range tab num d :
  0 ≤ num → Table.rows tab !! Z.to_nat num = Some d → Table.getitem tab num = Ok d.
Proof.
  intros Hnum Hd. unfold Table.getitem. rewrite Hd.
  pose proof (lookup_lt_Some _ _ _ Hd) as Hlt.
  destruct (Z.leb_spec 0 num); [|lia].
  destruct (Z.ltb_spec num (Z.of_nat (length (Table.rows tab)))); [done|lia].
Qed.

Lemma reads_length tab d fs raw : reads tab d fs raw → length raw = length fs.
Proof. intros H. symmetry. exact (Forall2_length _ _ _ H). Qed.

Lemma multiply_same_length (a b : list float) :
  length a = length b → np.multiply a b = Ok (zip_with PrimFloat.mul a b).
Proof. intros H. unfold np.multiply. by rewrite H, Nat.eqb_refl. Qed.

Section getFlux_in_range.
Variables (st : St) (num : Z) (tab : Table.t) (d : Table.row).
Variables (fs : list string) (vf : list float).
Hypothesis Hdata : self_data (self st) = Some tab.
Hypothesis Hnum : 0 ≤ num.
Hypothesis Hrow : Table.rows tab !! Z.to_nat num = Some d.
Hypothesis Hfilters : self_filters (self st) = Some fs.
Hypothesis Hvega : self_vega_flux (self st) = Some vf.
Hypothesis Hlen : length vf = length fs.
Hypothesis Hcols :
  Forall (λ f, ∃ col x, Table.aliases tab !! f = Some col ∧ d !! col = Some x) fs.

Lemma getFlux_run :
  ∃ raw, reads tab d fs raw ∧
    ∀ units, getFlux num units st =
      (Ok (if is_True units
           then WithUnit (mul_unit (zip_with PrimFloat.mul raw vf) erg_unit)
           else Plain (zip_with PrimFloat.mul raw vf)), st).
Proof.
  destruct (reads_exists _ _ _ Hcols) as [raw Hraw]. exists raw. split; [done|].
  intros units. unfold getFlux. unfold_M.
  rewrite Hdata, (getitem_in_range _ _ _ Hnum Hrow), Hfilters.
  erewrite (comprehension_Forall2 _ fs raw).
  - rewrite Hvega, multiply_same_length
      by (rewrite (reads_length _ _ _ _ Hraw); done).
    by destruct (is_True units).
  - eapply Forall2_impl; [exact Hraw|].
    intros f x (col & Hcol & Hx). simpl. rewrite Hdata.
    unfold Table.resolve_alias, Table.row_getitem. by rewrite Hcol, Hx.
Qed.

Lemma reads_zip_lookup raw j f :
  reads tab d fs raw → fs !! j = Some f →
  ∃ col x v, Table.aliases tab !! f = Some col ∧ d !! col = Some x ∧
             vf !! j = Some v ∧
             zip_with PrimFloat.mul raw vf !! j = Some (PrimFloat.mul x v).
Proof.
  intros Hraw Hj.
  destruct (Forall2_lookup_l _ _ _ _ _ Hraw Hj) as (x & Hx & col & Hcol & Hd).
  destruct (lookup_lt_is_Some_2 vf j) as [v Hv].
  { rewrite Hlen. by eapply lookup_lt_Some. }
  exists col, x, v. repeat split; try done.
  rewrite lookup_zip_with, Hx. simpl. by rewrite Hv.
Qed.

(** C1. For a row index in range, [getFlux(i)] returns an array with
    one element per active filter, in the order of the filter list: the
    element at position [j] is the raw rate of the column aliased by the
    filter at position [j], read in row [i], times the element at
    position [j] of the cached Vega flux vector (an elementwise
    product). *)
Theorem getFlux_elementwise :
  ∃ out, getFlux num (PyBool false) st = (Ok (Plain out), st) ∧
    length out = length fs ∧
    ∀ j f, fs !! j = Some f →
      ∃ col x v, Table.aliases tab !! f = Some col ∧ d !! col = Some x ∧
                 vf !! j = Some v ∧ out !! j = Some (PrimFloat.mul x v).
Proof.
  destruct getFlux_run as (raw & Hraw & Hrun).
  exists (zip_with PrimFloat.mul raw vf). split; [exact (Hrun (PyBool false))|].
  split.
  - rewrite length_zip_with, (reads_length _ _ _ _ Hraw), Hlen. lia.
  - intros j f Hj. by apply reads_zip_lookup.
Qed.

(** C4. For a row index in range, [getFlux(i, units=True)] returns the
    values of [getFlux(i, units=False)] in a capsule with the unit
    erg/s/cm**2/Angstrom; with [units=False] the result is the plain
    array. *)
Theorem getFlux_units_same_values :
  ∃ out, getFlux num (PyBool false) st = (Ok (Plain out), st) ∧
         getFlux num (PyBool true) st =
           (Ok (WithUnit (mkQuantity out "erg/s/cm**2/Angstrom")), st).
Proof.
  destruct getFlux_run as (raw & _ & Hrun).
  exists (zip_with PrimFloat.mul raw vf).
  split; [exact (Hrun (PyBool false))|exact (Hrun (PyBool true))].
Qed.

(** C9. [getFlux] returns the array in a unit capsule only when
    [units] is the boolean [True] itself; for every other argument, the
    integer [1] and other true non-boolean values included, it returns
    the plain array. *)
Theorem getFlux_units_is_True :
  ∃ out,
    getFlux num (PyBool true) st = (Ok (WithUnit (mkQuantity out erg_unit)), st) ∧
    (∀ units, units ≠ PyBool true → getFlux num units st = (Ok (Plain out), st)) ∧
    truthy (PyInt 1) = true ∧
    getFlux num (PyInt 1) st = (Ok (Plain out), st).
Proof.
  destruct getFlux_run as (raw & _ & Hrun).
  exists (zip_with PrimFloat.mul raw vf).
  split; [exact (Hrun (PyBool true))|].
  split; [|split; [done|exact (Hrun (PyInt 1))]].
  intros units Hne. rewrite Hrun.
  destruct units as [|[|]| | |]; done.
Qed.
End getFlux_in_range.

(** C3. For an index outside [0 <= index < row_count], [getFlux] fails
    with an out-of-range error, for a negative index and for
    [index = row_count] as for any other; it yields no row and leaves the
    catalog as it was. *)
Theorem getFlux_out_of_range st tab num units :
  self_data (self st) = Some tab →
  num < 0 ∨ Z.of_nat (length (Table.rows tab)) ≤ num →
  getFlux num units st = (Raise (IndexError num), st).
Proof.
  intros Hdata Hnum. unfold getFlux. unfold_M. rewrite Hdata.
  unfold Table.getitem.
  destruct (Z.leb_spec 0 num); destruct (Z.ltb_spec num (Z.of_nat (length (Table.rows tab))));
    simpl; try done; lia.
Qed.

(** C7. [getFlux] has no side effect: after a call, with [units] true or
    false and whether it returned or raised, the instance (its data with
    the alias table, its filter list, its Vega flux vector, its bad-value
    sentinel) and the world are what they were. *)
Theorem getFlux_no_side_effects st num units :
  let st' := (getFlux num units st).2 in
  st' = st ∧
  self_data (self st') = self_data (self st) ∧
  self_filters (self st') = self_filters (self st) ∧
  self_vega_flux (self st') = self_vega_flux (self st) ∧
  self_badvalue (self st') = self_badvalue (self st).
Proof.
  cbv zeta. assert ((getFlux num units st).2 = st) as ->; [|done].
  unfold getFlux. unfold_M.
  destruct (self_data (self st)) as [tab|] eqn:Hdata; [|done].
  destruct (Table.getitem tab num) as [d|e]; [|done].
  destruct (self_filters (self st)) as [fs|]; [|done].
  match goal with |- context [comprehension ?b fs st] =>
    pose proof (comprehension_readonly b fs st) as Hc;
    destruct (comprehension b fs st) as [[raw|e] s1] end.
  all: simpl in Hc; rewrite Hc.
  2, 4: intros ok s0; destruct (self_data (self s0)) as [t0|]; [|done];
        by destruct (Table.resolve_alias t0 ok).
  2: done.
  destruct (self_vega_flux (self st)) as [vf|]; [|done].
  destruct (np.multiply raw vf); [|done].
  by destruct (is_True units).
Qed.

(** ** The Vega lookup *)

Lemma lookup_all_Ok db fs es :
  Vega.lookup_all db fs = Ok es ↔ vega_has db fs es.
Proof.
  unfold vega_has. revert es. induction fs as [|f fs IH]; intros es; simpl.
  - split; [intros [= <-]; constructor|by inversion 1].
  - destruct (db !! f) as [e|] eqn:Hf.
    + destruct (Vega.lookup_all db fs) as [es0|x].
      * split.
        -- intros [= <-]. constructor; [done|]. by apply IH.
        -- inversion 1 as [|? e' ? es' He Hes]; subst.
           apply IH in Hes. congruence.
      * split; [done|]. inversion 1 as [|? e' ? es' He Hes]; subst.
        by apply IH in Hes.
    + split; [done|]. inversion 1; congruence.
Qed.

Lemma vega_has_subseteq db fs es fs' :
  vega_has db fs es → fs' ⊆ fs → ∃ es', vega_has db fs' es'.
Proof.
  intros Hfs Hsub. induction fs' as [|f fs' IH].
  - exists []. constructor.
  - destruct IH as [es' IH]; [set_solver|].
    assert (f ∈ fs) as Hf by set_solver.
    apply list_elem_of_lookup in Hf as [i Hi].
    destruct (Forall2_lookup_l _ _ _ _ _ Hfs Hi) as (e & _ & He).
    exists (e :: es'). by constructor.
Qed.

Lemma vega_has_length db fs es : vega_has db fs es → length es = length fs.
Proof. intros H. symmetry. exact (Forall2_length _ _ _ H). Qed.

(** ** setFilters, step by step *)

Lemma setFilters_run F st :
  setFilters F st =
    match vega_file (world st) with
    | None => (Raise (IOError "vega"), mkSt (set_filters F (self st)) (world st))
    | Some db =>
        match Vega.lookup_all db F with
        | Ok es => (Ok tt, mkSt (set_vega_flux (map vega_fnu es) (set_filters F (self st)))
                                (after_vega F (world st)))
        | Raise e => (Raise e, mkSt (set_filters F (self st)) (after_vega F (world st)))
        end
    end.
Proof.
  destruct st as [o w]. unfold setFilters, with_, Vega.enter, Vega.exit, Vega.getFlux.
  unfold_M. simpl.
  destruct (vega_file w) as [db|]; [|done]. simpl.
  unfold after_vega, vega_events, log_event, set_vega_open. simpl.
  destruct (Vega.lookup_all db F) as [es|e]; simpl;
    by rewrite <- !app_assoc.
Qed.

Lemma Observations_init_run file dm desc st :
  Observations_init file dm desc st =
    match catalog_files (world st) !! file with
    | None => (Raise (IOError file), mkSt (set_header file dm desc (self st)) (world st))
    | Some tab => (Ok tt, mkSt (set_data tab (set_header file dm desc (self st))) (world st))
    end.
Proof.
  unfold Observations_init. unfold_M. simpl.
  by destruct (catalog_files (world st) !! file).
Qed.

(** ** The alias loop of the constructor *)

Lemma for_enumerate_cons {T A} (body : nat → A → M T unit) ik k l s :
  for_enumerate body ik (k :: l) s =
    match body ik k s with
    | (Ok _, s') => for_enumerate body (S ik) l s'
    | (Raise e, s') => (Raise e, s')
    end.
Proof. simpl. unfold_M. by destruct (body ik k s) as [[[]|e] s']. Qed.

Lemma init_set_alias_run ik k st :
  init_set_alias ik k st =
    match self_data (self st) with
    | None => (Raise (AttributeError "data"), st)
    | Some tab =>
        match obs_colnames !! ik with
        | Some col => (Ok tt, mkSt (set_data (Table.set_alias tab k col) (self st)) (world st))
        | None => (Raise (IndexError (Z.of_nat ik)), st)
        end
    end.
Proof.
  unfold init_set_alias, list_getitem. unfold_M.
  destruct (self_data (self st)); [|done]. by destruct (obs_colnames !! ik).
Qed.

(** The loop writes [self.data] only: the world and the other attributes
    stay, whether it ends or raises. *)
Lemma alias_loop_frame l ik st :
  let st' := (for_enumerate init_set_alias ik l st).2 in
  world st' = world st ∧
  self_filters (self st') = self_filters (self st) ∧
  self_vega_flux (self st') = self_vega_flux (self st) ∧
  self_badvalue (self st') = self_badvalue (self st).
Proof.
  revert ik st. induction l as [|k l IH]; intros ik st; [done|].
  cbv zeta. rewrite for_enumerate_cons, init_set_alias_run.
  destruct (self_data (self st)) as [tab|]; [|done].
  destruct (obs_colnames !! ik) as [col|]; [|done].
  exact (IH (S ik) (mkSt (set_data (Table.set_alias tab k col) (self st)) (world st))).
Qed.

Lemma alias_loop_ok l ik st tab :
  self_data (self st) = Some tab →
  (ik + length l ≤ length obs_colnames)%nat →
  ∃ tab', for_enumerate init_set_alias ik l st
            = (Ok tt, mkSt (set_data tab' (self st)) (world st)) ∧
    Table.rows tab' = Table.rows tab ∧
    (∀ f, f ∉ l → Table.aliases tab' !! f = Table.aliases tab !! f) ∧
    (∀ j f, l !! j = Some f → (∀ j', (j < j')%nat → l !! j' ≠ Some f) →
            Table.aliases tab' !! f = obs_colnames !! (ik + j)%nat).
Proof.
  revert ik st tab. induction l as [|k l IH]; intros ik st tab Hdata Hlen.
  - exists tab. simpl. split; [|done].
    unfold_M. destruct st as [o w]. simpl in *. f_equal. f_equal.
    destruct o; simpl in *. by subst.
  - rewrite length_cons in Hlen.
    destruct (lookup_lt_is_Some_2 obs_colnames ik) as [col Hcol]; [lia|].
    set (st1 := mkSt (set_data (Table.set_alias tab k col) (self st)) (world st)).
    destruct (IH (S ik) st1 (Table.set_alias tab k col)) as (tab' & Hrun & Hrows & Hout & Hin);
      [done|lia|].
    exists tab'. split; [|split; [done|split]].
    + rewrite for_enumerate_cons, init_set_alias_run, Hdata, Hcol.
      fold st1. by rewrite Hrun.
    + intros f Hf. rewrite Hout by set_solver. simpl.
      apply lookup_insert_ne. set_solver.
    + intros [|j] f Hj Hlast; simpl in Hj.
      * injection Hj as ->. rewrite Hout.
        -- simpl. rewrite lookup_insert_eq, Nat.add_0_r. done.
        -- intros Hf. apply list_elem_of_lookup in Hf as [j' Hj'].
           by apply (Hlast (S j')); [lia|].
      * rewrite (Hin j f Hj).
        -- f_equal. lia.
        -- intros j' Hlt. apply (Hlast (S j')). lia.
Qed.

(** Beyond the six names of [obs_colnames] the loop raises. *)
Lemma alias_loop_too_long l ik st tab :
  self_data (self st) = Some tab →
  (ik ≤ length obs_colnames < ik + length l)%nat →
  ∃ e, (for_enumerate init_set_alias ik l st).1 = Raise e.
Proof.
  revert ik st tab. induction l as [|k l IH]; intros ik st tab Hdata Hlen.
  - rewrite length_nil in Hlen. lia.
  - rewrite length_cons in Hlen.
    rewrite for_enumerate_cons, init_set_alias_run, Hdata.
    destruct (obs_colnames !! ik) as [col|] eqn:Hcol; [|by eexists].
    apply lookup_lt_Some in Hcol.
    apply (IH (S ik) _ (Table.set_alias tab k col)); [done|lia].
Qed.

(** ** The constructor, step by step *)

Lemma bind_run {T A B} (m : M T A) (f : A → M T B) s :
  (m ≫= f) s = match m s with
               | (Ok a, s') => f a s'
               | (Raise e, s') => (Raise e, s')
               end.
Proof. reflexivity. Qed.

Lemma new_ok file dm F w tab db es :
  catalog_files w !! file = Some tab →
  vega_file w = Some db →
  vega_has db F es →
  (length F ≤ length obs_colnames)%nat →
  ∃ tab',
    GenFluxCatalog_new file dm F w =
      (Ok (mkCatalog (Some file) (Some dm) (Some ("GENERIC star: " +:+ file)%string)
                     (Some tab') (Some F) (Some (map vega_fnu es)) (Some 6e-40%float)),
       after_vega F w) ∧
    Table.rows tab' = Table.rows tab ∧
    (∀ f, f ∉ F → Table.aliases tab' !! f = Table.aliases tab !! f) ∧
    (∀ j f, F !! j = Some f → (∀ j', (j < j')%nat → F !! j' ≠ Some f) →
            Table.aliases tab' !! f = obs_colnames !! j).
Proof.
  intros Hfile Hvega Hes Hlen. apply lookup_all_Ok in Hes.
  set (o1 := set_badvalue 6e-40%float
               (set_vega_flux (map vega_fnu es)
                  (set_filters F
                     (set_data tab
                        (set_header file dm ("GENERIC star: " +:+ file)%string blank))))).
  destruct (alias_loop_ok F 0 (mkSt o1 (after_vega F w)) tab) as (tab' & Hrun & Hrest);
    [done|done|].
  exists tab'. split; [|exact Hrest].
  unfold GenFluxCatalog_new, GenFluxCatalog_init.
  rewrite bind_run, Observations_init_run. simpl. rewrite Hfile.
  rewrite bind_run, setFilters_run. simpl. rewrite Hvega, Hes.
  rewrite bind_run. unfold setBadValue, on_self, modify. simpl.
  fold o1. by rewrite Hrun.
Qed.

Lemma new_inv file dm F w c w' :
  GenFluxCatalog_new file dm F w = (Ok c, w') →
  ∃ tab db es,
    catalog_files w !! file = Some tab ∧ vega_file w = Some db ∧
    vega_has db F es ∧ (length F ≤ length obs_colnames)%nat.
Proof.
  unfold GenFluxCatalog_new, GenFluxCatalog_init.
  rewrite bind_run, Observations_init_run. simpl.
  destruct (catalog_files w !! file) as [tab|] eqn:Hfile; [|done].
  rewrite bind_run, setFilters_run. simpl.
  destruct (vega_file w) as [db|] eqn:Hvega; [|done].
  destruct (Vega.lookup_all db F) as [es|e] eqn:Hes; [|done].
  rewrite bind_run. unfold setBadValue, on_self, modify. simpl.
  intros Hrun. exists tab, db, es. repeat split; try done; [by apply lookup_all_Ok|].
  destruct (decide (length F ≤ length obs_colnames)%nat) as [|Hlong]; [done|].
  match type of Hrun with context [for_enumerate _ _ _ ?st] =>
    destruct (alias_loop_too_long F 0 st tab) as [e He]; [done|lia|];
    destruct (for_enumerate init_set_alias 0 F st) as [[[]|e'] s'] end;
    done.
Qed.

Lemma obs_colnames_lookup ik :
  (ik < 6)%nat →
  ∃ b, basefilters !! ik = Some b ∧
       obs_colnames !! ik = Some (lower b +:+ "_rate")%string.
Proof.
  intros Hik. do 6 (destruct ik as [|ik]; [eexists; split; reflexivity|]). lia.
Qed.

(** ** The aliases the constructor establishes *)

(** C2, as the code has it.  For a catalog file that loads, filters the
    reference file knows and at most six of them, the constructor returns
    an instance whose alias table maps the filter at each position [ik]
    of the given sequence (at its last occurrence, when a name is
    repeated) to [obs_colnames[ik]], the lower-cased short name
    [basefilters[ik]] suffixed with [_rate]. *)
Theorem init_aliases_positional file dm F w tab db es :
  catalog_files w !! file = Some tab →
  vega_file w = Some db →
  vega_has db F es →
  (length F ≤ 6)%nat →
  ∃ c w' tab',
    GenFluxCatalog_new file dm F w = (Ok c, w') ∧
    self_data c = Some tab' ∧
    ∀ ik k, F !! ik = Some k → (∀ jk, (ik < jk)%nat → F !! jk ≠ Some k) →
      ∃ b, basefilters !! ik = Some b ∧
           Table.aliases tab' !! k = Some (lower b +:+ "_rate")%string.
Proof.
  intros Hfile Hvega Hes Hlen.
  destruct (new_ok file dm F w tab db es) as (tab' & Hnew & _ & _ & Hin); try done.
  eexists _, _, tab'. split; [exact Hnew|]. split; [done|].
  intros ik k Hik Hlast.
  destruct (obs_colnames_lookup ik) as (b & Hb & Hcol).
  { apply lookup_lt_Some in Hik. lia. }
  exists b. split; [done|]. by rewrite (Hin ik k Hik Hlast).
Qed.

(** C2 read to the letter fails on the configuration of the file
    itself: the constructor aliases [HST_WFC3_F275W] to [f275w_rate], not
    to its own lower-cased name with the suffix; and given the single
    filter [HST_ACS_WFC_F814W] it aliases it to [f275w_rate], the column
    of the first position, which is the lower-cased form of no name of
    that filter. *)
Lemma init_alias_not_lowercased_filter :
  (∃ c w' tab,
     GenFluxCatalog_new obsfile distanceModulus filters phat_world = (Ok c, w') ∧
     "HST_WFC3_F275W"%string ∈ filters ∧
     self_data c = Some tab ∧
     Table.aliases tab !! "HST_WFC3_F275W"%string = Some "f275w_rate"%string ∧
     Table.aliases tab !! "HST_WFC3_F275W"%string
       ≠ Some (lower "HST_WFC3_F275W" +:+ "_rate")%string) ∧
  (∃ c w' tab,
     GenFluxCatalog_new obsfile distanceModulus ["HST_ACS_WFC_F814W"%string] phat_world
       = (Ok c, w') ∧
     self_data c = Some tab ∧
     Table.aliases tab !! "HST_ACS_WFC_F814W"%string = Some "f275w_rate"%string ∧
     Table.aliases tab !! "HST_ACS_WFC_F814W"%string
       ≠ Some (lower "HST_ACS_WFC_F814W" +:+ "_rate")%string).
Proof.
  split.
  - eexists _, _, _. split; [vm_compute; reflexivity|].
    split; [by_deciding|]. split; [reflexivity|].
    split; [vm_compute; reflexivity|]. vm_compute. discriminate.
  - eexists _, _, _. split; [vm_compute; reflexivity|].
    split; [reflexivity|]. split; [vm_compute; reflexivity|]. vm_compute. discriminate.
Qed.

(** The instance the constructor returns depends on the world through the
    catalog file and the reference file only. *)
Lemma alias_loop_world l ik o w w2 :
  (for_enumerate init_set_alias ik l (mkSt o w)).1
    = (for_enumerate init_set_alias ik l (mkSt o w2)).1 ∧
  self (for_enumerate init_set_alias ik l (mkSt o w)).2
    = self (for_enumerate init_set_alias ik l (mkSt o w2)).2.
Proof.
  revert ik o. induction l as [|k l IH]; intros ik o; [done|].
  rewrite !for_enumerate_cons, !init_set_alias_run. simpl.
  destruct (self_data o) as [tab|]; [|done].
  destruct (obs_colnames !! ik) as [col|]; [|done].
  apply IH.
Qed.

Lemma new_world_irrelevant file dm F w w2 :
  catalog_files w2 !! file = catalog_files w !! file →
  vega_file w2 = vega_file w →
  (GenFluxCatalog_new file dm F w).1 = (GenFluxCatalog_new file dm F w2).1.
Proof.
  intros Hfile Hvega. unfold GenFluxCatalog_new, GenFluxCatalog_init.
  rewrite !bind_run, !Observations_init_run. simpl. rewrite Hfile.
  destruct (catalog_files w !! file) as [tab|]; [|done].
  rewrite !bind_run, !setFilters_run. simpl. rewrite Hvega.
  destruct (vega_file w) as [db|]; [|done].
  destruct (Vega.lookup_all db F) as [es|e]; [|done].
  rewrite !bind_run. unfold setBadValue, on_self, modify. simpl.
  match goal with |- context [for_enumerate _ _ _ (mkSt ?o ?wa)] =>
    match goal with |- context [for_enumerate _ _ _ (mkSt o ?wb)] =>
      assert_fails (constr_eq wa wb);
      destruct (alias_loop_world F 0 o wa wb) as [Hr Hs];
      destruct (for_enumerate init_set_alias 0 F (mkSt o wa)) as [[[]|e1] s1];
      destruct (for_enumerate init_set_alias 0 F (mkSt o wb)) as [[[]|e2] s2]
    end end; simpl in *; congruence.
Qed.

(** ** setFilters on a constructed catalog *)

(** C5. On a constructed catalog, [setFilters(F')] with [F'] among the
    filters of the construction returns, replaces the filter list with
    [F'] and caches the Vega fluxes of [F'] fetched anew, on the same
    instance; from then on [getFlux] at a row in range returns one value
    per filter of [F'], in the order of [F']. *)
Theorem setFilters_then_getFlux file dm F w c w1 w2 F' :
  GenFluxCatalog_new file dm F w = (Ok c, w1) →
  vega_file w2 = vega_file w →
  F' ⊆ F →
  ∃ db es' tab,
    let vf' := map vega_fnu es' in
    let st' := mkSt (set_vega_flux vf' (set_filters F' c)) (after_vega F' w2) in
    vega_file w = Some db ∧ vega_has db F' es' ∧
    setFilters F' (mkSt c w2) = (Ok tt, st') ∧
    self_filters (self st') = Some F' ∧
    self_vega_flux (self st') = Some vf' ∧
    self_data (self st') = Some tab ∧ self_data c = Some tab ∧
    ∀ num d,
      0 ≤ num → Table.rows tab !! Z.to_nat num = Some d →
      Forall (λ f, ∃ col x, Table.aliases tab !! f = Some col ∧ d !! col = Some x) F' →
      ∃ out, getFlux num (PyBool false) st' = (Ok (Plain out), st') ∧
        length out = length F' ∧
        ∀ j f, F' !! j = Some f →
          ∃ col x v, Table.aliases tab !! f = Some col ∧ d !! col = Some x ∧
                     vf' !! j = Some v ∧ out !! j = Some (PrimFloat.mul x v).
Proof.
  intros Hnew Hw2 Hsub.
  destruct (new_inv _ _ _ _ _ _ Hnew) as (tab0 & db & es & Hfile & Hvega & Hes & Hlen).
  destruct (new_ok file dm F w tab0 db es) as (tab & Hnew' & _); try done.
  rewrite Hnew in Hnew'. injection Hnew' as -> ->.
  destruct (vega_has_subseteq _ _ _ _ Hes Hsub) as [es' Hes'].
  exists db, es', tab. cbv zeta. split; [done|]. split; [done|].
  split.
  { rewrite setFilters_run. simpl. rewrite Hw2, Hvega.
    by rewrite (proj2 (lookup_all_Ok _ _ _) Hes'). }
  do 4 (split; [done|]).
  intros num d Hnum Hrow Hcols.
  set (o' := set_vega_flux (map vega_fnu es') (set_filters F' _)).
  assert (length (map vega_fnu es') = length F') as Hlen'
    by (rewrite length_map; by eapply vega_has_length).
  destruct (getFlux_run (mkSt o' (after_vega F' w2)) num tab d F' (map vega_fnu es'))
    as (raw & Hraw & Hrun); try done.
  exists (zip_with PrimFloat.mul raw (map vega_fnu es')).
  split; [exact (Hrun (PyBool false))|]. split.
  - rewrite length_zip_with, (reads_length _ _ _ _ Hraw), Hlen'. lia.
  - intros j f Hj. by apply (reads_zip_lookup tab d F' _ Hlen').
Qed.

(** ** Determinism of the construction *)

(** C6. Two constructions with the same file, distance modulus and
    filters, over the same reference file, cache the same Vega flux
    vector, whatever else differs between the worlds they run in; and the
    construction repeated in the world the first one left returns, with
    the same instance. *)
Theorem construction_deterministic file dm F w1 w2 c1 c2 w1' w2' :
  vega_file w2 = vega_file w1 →
  GenFluxCatalog_new file dm F w1 = (Ok c1, w1') →
  GenFluxCatalog_new file dm F w2 = (Ok c2, w2') →
  self_vega_flux c2 = self_vega_flux c1 ∧
  ∃ w3, GenFluxCatalog_new file dm F w1' = (Ok c1, w3).
Proof.
  intros Hw2 Hnew Hnew2.
  destruct (new_inv _ _ _ _ _ _ Hnew) as (tab & db & es & Hfile & Hvega & Hes & Hlen).
  destruct (new_ok file dm F w1 tab db es) as (tab1 & Hnew1 & _); try done.
  rewrite Hnew in Hnew1. injection Hnew1 as -> ->.
  split.
  - destruct (new_inv _ _ _ _ _ _ Hnew2) as (tab2 & db2 & es2 & Hfile2 & Hvega2 & Hes2 & _).
    destruct (new_ok file dm F w2 tab2 db2 es2) as (tab2' & Hnew2' & _); try done.
    rewrite Hnew2 in Hnew2'. injection Hnew2' as -> ->. simpl.
    rewrite Hw2, Hvega in Hvega2. injection Hvega2 as <-.
    apply lookup_all_Ok in Hes, Hes2. congruence.
  - pose proof (new_world_irrelevant file dm F w1 (after_vega F w1) eq_refl eq_refl) as Heq.
    rewrite Hnew in Heq. simpl in Heq.
    destruct (GenFluxCatalog_new file dm F (after_vega F w1)) as [r w3].
    exists w3. simpl in Heq. by subst r.
Qed.

(** ** The scope of the Vega source *)

Lemma setFilters_world F st :
  world (setFilters F st).2 =
    match vega_file (world st) with
    | Some _ => after_vega F (world st)
    | None => world st
    end.
Proof.
  rewrite setFilters_run. destruct (vega_file (world st)) as [db|]; [|done].
  by destruct (Vega.lookup_all db F).
Qed.

Lemma new_world file dm F w :
  (GenFluxCatalog_new file dm F w).2 =
    match catalog_files w !! file, vega_file w with
    | Some _, Some _ => after_vega F w
    | _, _ => w
    end.
Proof.
  unfold GenFluxCatalog_new, GenFluxCatalog_init.
  rewrite bind_run, Observations_init_run. simpl.
  destruct (catalog_files w !! file) as [tab|]; [|done].
  rewrite bind_run, setFilters_run. simpl.
  destruct (vega_file w) as [db|]; [|done].
  destruct (Vega.lookup_all db F) as [es|e]; [|done].
  rewrite bind_run. unfold setBadValue, on_self, modify. simpl.
  match goal with |- context [for_enumerate _ _ _ ?st] =>
    destruct (alias_loop_frame F 0 st) as [Hw _];
    destruct (for_enumerate init_set_alias 0 F st) as [[[]|e] s] end;
    exact Hw.
Qed.

(** C8. Within one call of [setFilters], and within one construction,
    the Vega source is opened, queried once for all the filters and
    closed, in that order, and as many handles are open after the call as
    before it; this holds when the query raises, in which case the
    exception leaves the call after the source was closed.  When the
    source cannot be opened, or the catalog file cannot be loaded, it is
    not touched. *)
Theorem vega_source_scoped :
  (∀ F st,
     let st' := (setFilters F st).2 in
     vega_open (world st') = vega_open (world st) ∧
     events (world st') =
       events (world st) ++
       match vega_file (world st) with
       | Some _ => [VegaOpen; VegaQuery F; VegaClose]
       | None => []
       end) ∧
  (∀ file dm F w,
     let w' := (GenFluxCatalog_new file dm F w).2 in
     vega_open w' = vega_open w ∧
     events w' =
       events w ++
       match catalog_files w !! file, vega_file w with
       | Some _, Some _ => [VegaOpen; VegaQuery F; VegaClose]
       | _, _ => []
       end) ∧
  (∀ F st db e,
     vega_file (world st) = Some db →
     Vega.lookup_all db F = Raise e →
     (setFilters F st).1 = Raise e ∧
     vega_open (world (setFilters F st).2) = vega_open (world st) ∧
     events (world (setFilters F st).2) =
       events (world st) ++ [VegaOpen; VegaQuery F; VegaClose]).
Proof.
  split; [|split].
  - intros F st. cbv zeta. rewrite setFilters_world.
    destruct (vega_file (world st)); simpl; [done|]. by rewrite app_nil_r.
  - intros file dm F w. cbv zeta. rewrite new_world.
    destruct (catalog_files w !! file), (vega_file w); simpl;
      by rewrite ?app_nil_r.
  - intros F st db e Hvega He. rewrite setFilters_run, Hvega, He. done.
Qed.

(** ** What setFilters leaves alone *)

Lemma setFilters_self F st :
  let o' := self (setFilters F st).2 in
  self_data o' = self_data (self st) ∧
  self_badvalue o' = self_badvalue (self st) ∧
  self_inputFile o' = self_inputFile (self st) ∧
  self_distanceModulus o' = self_distanceModulus (self st) ∧
  self_desc o' = self_desc (self st).
Proof.
  cbv zeta. rewrite setFilters_run.
  destruct (vega_file (world st)) as [db|]; [|done].
  by destruct (Vega.lookup_all db F).
Qed.

(** C10. [setFilters] writes the filter list and the Vega flux vector
    only: the data with its alias table and the bad-value sentinel are
    what they were, as are the file name, the distance modulus and the
    description.  They are set by the constructor, the sentinel to 6e-40
    and the aliases by position from [obs_colnames]; so for a name that
    was not among the filters of the construction the alias table has,
    after any [setFilters], what the loaded file had for it: no alias is
    established for it. *)
Theorem setFilters_frame :
  (∀ F st,
     let o' := self (setFilters F st).2 in
     self_data o' = self_data (self st) ∧
     self_badvalue o' = self_badvalue (self st) ∧
     self_inputFile o' = self_inputFile (self st) ∧
     self_distanceModulus o' = self_distanceModulus (self st) ∧
     self_desc o' = self_desc (self st)) ∧
  (∀ file dm F w c w1 tab,
     GenFluxCatalog_new file dm F w = (Ok c, w1) →
     catalog_files w !! file = Some tab →
     ∀ F' w2 f,
       f ∉ F →
       let o' := self (setFilters F' (mkSt c w2)).2 in
       self_badvalue o' = Some 6e-40%float ∧
       ∃ tab', self_data o' = Some tab' ∧
               Table.aliases tab' !! f = Table.aliases tab !! f).
Proof.
  split; [exact setFilters_self|].
  intros file dm F w c w1 tab Hnew Hfile F' w2 f Hf. cbv zeta.
  destruct (setFilters_self F' (mkSt c w2)) as (Hdata & Hbad & _).
  rewrite Hdata, Hbad. simpl.
  destruct (new_inv _ _ _ _ _ _ Hnew) as (tab0 & db & es & Hfile0 & Hvega & Hes & Hlen).
  rewrite Hfile in Hfile0. injection Hfile0 as <-.
  destruct (new_ok file dm F w tab db es) as (tab' & Hnew' & _ & Hout & _); try done.
  rewrite Hnew in Hnew'. injection Hnew' as -> ->. simpl.
  split; [done|]. exists tab'. split; [done|]. by apply Hout.
Qed.

(** * The theorems at work on the small catalog *)


Ltac each_filter tac :=
  repeat match goal with
         | |- Forall _ [] => constructor
         | |- Forall2 _ [] _ => constructor
         | |- Forall _ (_ :: _) => constructor; [tac|]
         | |- Forall2 _ (_ :: _) _ => constructor; [tac|]
         end.

(** The instance [phat_st] is the one the constructor returns. *)
Example phat_st_constructed :
  GenFluxCatalog_new obsfile distanceModulus filters phat_world
    = (Ok (self phat_st), world phat_st).
Proof. by_running. Qed.

(** The scenario of the specification: two filters, raw rates 0.002 and
    0.05, Vega fluxes 1.2e-9 and 3.4e-9. *)
Example getFlux_scenario :
  getFlux 0 (PyBool false) phat_st2 = (Ok (Plain [2.4e-12; 1.7e-10]%float), phat_st2).
Proof. by_running. Qed.

(** More filters than [obs_colnames] has names: the constructor raises. *)
Example seven_filters_raise :
  (GenFluxCatalog_new obsfile distanceModulus (filters ++ ["HST_WFC3_F275W"%string])
     phat_world).1 = Raise (IndexError 6).
Proof. by_running. Qed.

Lemma getFlux_elementwise_witness :
  ∃ out, getFlux 0 (PyBool false) phat_st2 = (Ok (Plain out), phat_st2) ∧
    length out = length phat_two ∧
    ∀ j f, phat_two !! j = Some f →
      ∃ col x v, Table.aliases phat_tab !! f = Some col ∧ phat_d !! col = Some x ∧
                 phat_vf2 !! j = Some v ∧ out !! j = Some (PrimFloat.mul x v).
Proof.
  apply (getFlux_elementwise phat_st2 0 phat_tab phat_d phat_two phat_vf2).
  - by_running.
  - lia.
  - reflexivity.
  - by_running.
  - by_running.
  - reflexivity.
  - unfold phat_two. each_filter ltac:(eexists _, _; split; by_running).
Defined.

Lemma init_aliases_positional_witness :
  ∃ c w' tab',
    GenFluxCatalog_new obsfile distanceModulus filters phat_world = (Ok c, w') ∧
    self_data c = Some tab' ∧
    ∀ ik k, filters !! ik = Some k → (∀ jk, (ik < jk)%nat → filters !! jk ≠ Some k) →
      ∃ b, basefilters !! ik = Some b ∧
           Table.aliases tab' !! k = Some (lower b +:+ "_rate")%string.
Proof.
  eapply (init_aliases_positional obsfile distanceModulus filters phat_world
            (Table.mk phat_rows ∅) phat_vega).
  - by_running.
  - reflexivity.
  - unfold vega_has, filters. each_filter ltac:(by_running).
  - vm_compute. lia.
Defined.

Lemma getFlux_out_of_range_witness :
  getFlux 3 (PyBool false) phat_st = (Raise (IndexError 3), phat_st) ∧
  getFlux (-1) (PyBool false) phat_st = (Raise (IndexError (-1)), phat_st).
Proof.
  split.
  - apply (getFlux_out_of_range phat_st phat_tab 3); [by_running|right; simpl; lia].
  - apply (getFlux_out_of_range phat_st phat_tab (-1)); [by_running|left; lia].
Defined.

Lemma getFlux_units_same_values_witness :
  ∃ out, getFlux 0 (PyBool false) phat_st = (Ok (Plain out), phat_st) ∧
         getFlux 0 (PyBool true) phat_st =
           (Ok (WithUnit (mkQuantity out "erg/s/cm**2/Angstrom")), phat_st).
Proof.
  apply (getFlux_units_same_values phat_st 0 phat_tab phat_d filters phat_vf).
  - by_running.
  - lia.
  - reflexivity.
  - by_running.
  - by_running.
  - reflexivity.
  - unfold filters. each_filter ltac:(eexists _, _; split; by_running).
Defined.

Lemma getFlux_units_is_True_witness :
  ∃ out,
    getFlux 0 (PyBool true) phat_st = (Ok (WithUnit (mkQuantity out erg_unit)), phat_st) ∧
    (∀ units, units ≠ PyBool true → getFlux 0 units phat_st = (Ok (Plain out), phat_st)) ∧
    truthy (PyInt 1) = true ∧
    getFlux 0 (PyInt 1) phat_st = (Ok (Plain out), phat_st).
Proof.
  apply (getFlux_units_is_True phat_st 0 phat_tab phat_d filters phat_vf).
  - by_running.
  - lia.
  - reflexivity.
  - by_running.
  - by_running.
  - reflexivity.
  - unfold filters. each_filter ltac:(eexists _, _; split; by_running).
Defined.

Lemma setFilters_then_getFlux_witness :
  ∃ db es' tab,
    let vf' := map vega_fnu es' in
    let st' := mkSt (set_vega_flux vf' (set_filters phat_two (self phat_st)))
                    (after_vega phat_two (world phat_st)) in
    vega_file phat_world = Some db ∧ vega_has db phat_two es' ∧
    setFilters phat_two (mkSt (self phat_st) (world phat_st)) = (Ok tt, st') ∧
    self_filters (self st') = Some phat_two ∧
    self_vega_flux (self st') = Some vf' ∧
    self_data (self st') = Some tab ∧ self_data (self phat_st) = Some tab ∧
    ∀ num d,
      0 ≤ num → Table.rows tab !! Z.to_nat num = Some d →
      Forall (λ f, ∃ col x, Table.aliases tab !! f = Some col ∧ d !! col = Some x)
             phat_two →
      ∃ out, getFlux num (PyBool false) st' = (Ok (Plain out), st') ∧
        length out = length phat_two ∧
        ∀ j f, phat_two !! j = Some f →
          ∃ col x v, Table.aliases tab !! f = Some col ∧ d !! col = Some x ∧
                     vf' !! j = Some v ∧ out !! j = Some (PrimFloat.mul x v).
Proof.
  apply (setFilters_then_getFlux obsfile distanceModulus filters phat_world
           (self phat_st) (world phat_st) (world phat_st) phat_two).
  - by_running.
  - reflexivity.
  - by_deciding.
Defined.

Lemma construction_deterministic_witness :
  self_vega_flux (self phat_st) = self_vega_flux (self phat_st) ∧
  ∃ w3, GenFluxCatalog_new obsfile distanceModulus filters (world phat_st)
          = (Ok (self phat_st), w3).
Proof.
  apply (construction_deterministic obsfile distanceModulus filters
           phat_world (world phat_st2) (self phat_st) (self phat_st)
           (world phat_st) (after_vega filters (world phat_st2))).
  - reflexivity.
  - by_running.
  - by_running.
Defined.

Lemma vega_source_scoped_witness :
  (setFilters ["HST_WFC3_F225W"%string] phat_st).1 = Raise (KeyError "HST_WFC3_F225W") ∧
  vega_open (world (setFilters ["HST_WFC3_F225W"%string] phat_st).2)
    = vega_open (world phat_st) ∧
  events (world (setFilters ["HST_WFC3_F225W"%string] phat_st).2)
    = events (world phat_st) ++ [VegaOpen; VegaQuery ["HST_WFC3_F225W"%string]; VegaClose].
Proof.
  apply (proj2 (proj2 vega_source_scoped) ["HST_WFC3_F225W"%string] phat_st phat_vega).
  - reflexivity.
  - by_running.
Defined.

Lemma setFilters_frame_witness :
  let o' := self (setFilters ["HST_WFC3_F225W"%string] (mkSt (self phat_st) (world phat_st))).2 in
  self_badvalue o' = Some 6e-40%float ∧
  ∃ tab', self_data o' = Some tab' ∧
          Table.aliases tab' !! "HST_WFC3_F225W"%string
            = Table.aliases (Table.mk phat_rows ∅) !! "HST_WFC3_F225W"%string.
Proof.
  apply (proj2 setFilters_frame obsfile distanceModulus filters phat_world
           (self phat_st) (world phat_st) (Table.mk phat_rows ∅)).
  - by_running.
  - by_running.
  - by_deciding.
Defined.

(** * Further properties of the constructor *)

Lemma get_obscat_new file dm F w :
  get_obscat file dm F w = GenFluxCatalog_new file dm F w.
Proof.
  unfold get_obscat. rewrite bind_run.
  by destruct (GenFluxCatalog_new file dm F w) as [[c|e] w'].
Qed.


(** Past the last name of [obs_colnames] the loop raises the index error
    of position six. *)
Lemma alias_loop_index_error l ik st tab :
  self_data (self st) = Some tab →
  (ik ≤ length obs_colnames < ik + length l)%nat →
  (for_enumerate init_set_alias ik l st).1
    = Raise (IndexError (Z.of_nat (length obs_colnames))).
Proof.
  revert ik st tab. induction l as [|k l IH]; intros ik st tab Hdata Hlen.
  - rewrite length_nil in Hlen. lia.
  - rewrite length_cons in Hlen.
    rewrite for_enumerate_cons, init_set_alias_run, Hdata.
    destruct (obs_colnames !! ik) as [col|] eqn:Hcol.
    + apply lookup_lt_Some in Hcol.
      apply (IH (S ik) _ (Table.set_alias tab k col)); [done|lia].
    + apply lookup_ge_None in Hcol. cbn [fst]. do 2 f_equal. lia.
Qed.

(** X1. [get_obscat] returns a catalog exactly when the catalog file
    loads, the Vega source opens and knows every filter, and there are at
    most six filters. *)
Theorem get_obscat_succeeds_iff file dm F w :
  (∃ c w', get_obscat file dm F w = (Ok c, w')) ↔
  (∃ tab db es,
     catalog_files w !! file = Some tab ∧ vega_file w = Some db ∧
     vega_has db F es ∧ (length F ≤ 6)%nat).
Proof.
  rewrite get_obscat_new. split.
  - intros (c & w' & Hnew). exact (new_inv _ _ _ _ _ _ Hnew).
  - intros (tab & db & es & Hfile & Hvega & Hes & Hlen).
    destruct (new_ok file dm F w tab db es) as (tab' & Hnew & _); try done.
    by eexists _, _.
Qed.

(** X2. A catalog the constructor returns has every attribute set: the
    file name, the distance modulus, the description [GENERIC star: ]
    followed by the file name, the given filters, the sentinel 6e-40, one
    Vega flux per filter, and a table with the rows of the loaded file. *)
Theorem new_attributes file dm F w c w' :
  GenFluxCatalog_new file dm F w = (Ok c, w') →
  self_inputFile c = Some file ∧
  self_distanceModulus c = Some dm ∧
  self_desc c = Some ("GENERIC star: " +:+ file)%string ∧
  self_filters c = Some F ∧
  self_badvalue c = Some 6e-40%float ∧
  ∃ tab tab' vf,
    catalog_files w !! file = Some tab ∧
    self_data c = Some tab' ∧ Table.rows tab' = Table.rows tab ∧
    self_vega_flux c = Some vf ∧ length vf = length F.
Proof.
  intros Hnew.
  destruct (new_inv _ _ _ _ _ _ Hnew) as (tab & db & es & Hfile & Hvega & Hes & Hlen).
  destruct (new_ok file dm F w tab db es) as (tab' & Hnew' & Hrows & _); try done.
  rewrite Hnew in Hnew'. injection Hnew' as -> ->. simpl.
  do 5 (split; [done|]). exists tab, tab', (map vega_fnu es).
  do 4 (split; [done|]). rewrite length_map. by eapply vega_has_length.
Qed.

(** X3. With more than six filters the constructor raises the index
    error of [obs_colnames[6]], although the file loaded and the Vega
    source knew every filter; the source has been opened, queried and
    closed by then. *)
Theorem new_too_many_filters file dm F w tab db es :
  catalog_files w !! file = Some tab →
  vega_file w = Some db →
  vega_has db F es →
  (6 < length F)%nat →
  GenFluxCatalog_new file dm F w = (Raise (IndexError 6), after_vega F w).
Proof.
  intros Hfile Hvega Hes Hlen. apply lookup_all_Ok in Hes.
  unfold GenFluxCatalog_new, GenFluxCatalog_init.
  rewrite bind_run, Observations_init_run. simpl. rewrite Hfile.
  rewrite bind_run, setFilters_run. simpl. rewrite Hvega, Hes.
  rewrite bind_run. unfold setBadValue, on_self, modify. simpl.
  match goal with |- context [for_enumerate _ _ _ ?st] =>
    pose proof (alias_loop_index_error F 0 st tab eq_refl) as Hloop;
    destruct (alias_loop_frame F 0 st) as [Hw _];
    destruct (for_enumerate init_set_alias 0 F st) as [[[]|e] s] end;
    cbn [fst snd] in *.
  - discriminate Hloop. change (length obs_colnames) with 6%nat. lia.
  - rewrite Hw. injection Hloop as ->; [done|].
    change (length obs_colnames) with 6%nat. lia.
Qed.

(** X4. When the catalog file does not load, the constructor raises the
    loader's error and the world is as before: the Vega source is not
    opened.  When the file loads and the Vega source does not open, the
    constructor raises that error, again with the world as before. *)
Theorem new_resource_errors file dm F w :
  (catalog_files w !! file = None →
   GenFluxCatalog_new file dm F w = (Raise (IOError file), w)) ∧
  (∀ tab, catalog_files w !! file = Some tab → vega_file w = None →
   GenFluxCatalog_new file dm F w = (Raise (IOError "vega"), w)).
Proof.
  split.
  - intros Hfile. unfold GenFluxCatalog_new, GenFluxCatalog_init.
    rewrite bind_run, Observations_init_run. simpl. by rewrite Hfile.
  - intros tab Hfile Hvega. unfold GenFluxCatalog_new, GenFluxCatalog_init.
    rewrite bind_run, Observations_init_run. simpl. rewrite Hfile.
    rewrite bind_run, setFilters_run. simpl. by rewrite Hvega.
Qed.


(** * Further properties of setFilters *)

(** X6. [setFilters] is not atomic: when it raises, because the Vega
    source does not open or does not know a filter, the filter list has
    already been replaced while the Vega flux vector is the one of before;
    the other attributes are unchanged. *)
Theorem setFilters_failure_state F st e st' :
  setFilters F st = (Raise e, st') →
  self_filters (self st') = Some F ∧
  self_vega_flux (self st') = self_vega_flux (self st) ∧
  self_data (self st') = self_data (self st) ∧
  self_badvalue (self st') = self_badvalue (self st).
Proof.
  rewrite setFilters_run.
  destruct (vega_file (world st)) as [db|].
  - destruct (Vega.lookup_all db F) as [es|e0]; [done|]. by intros [= _ <-].
  - by intros [= _ <-].
Qed.

(** X7. The last [setFilters] wins: when [setFilters(F2)] returns after
    an earlier [setFilters(F1)], whether that one returned or raised, the
    instance is the one [setFilters(F2)] alone would have left. *)
Theorem setFilters_last_wins F1 F2 st st2 :
  setFilters F2 (setFilters F1 st).2 = (Ok tt, st2) →
  ∃ st2', setFilters F2 st = (Ok tt, st2') ∧ self st2' = self st2.
Proof.
  rewrite (setFilters_run F2 st), (setFilters_run F2 (setFilters F1 st).2).
  rewrite (setFilters_run F1 st).
  destruct (vega_file (world st)) as [db|] eqn:Hvega; simpl; [|by rewrite Hvega].
  destruct (Vega.lookup_all db F1) as [es1|e1]; simpl; rewrite Hvega;
    (destruct (Vega.lookup_all db F2) as [es2|e2]; [|done]);
    intros [= <-]; by eexists.
Qed.

(** * Further properties of getFlux *)

Section comprehension_more.
Context {T A B : Type} (body : A → M T B).

Lemma comprehension_agree (l : list A) (s1 s2 : T) :
  (∀ x s0, (body x s0).2 = s0) →
  (∀ x, (body x s1).1 = (body x s2).1) →
  (comprehension body l s1).1 = (comprehension body l s2).1.
Proof.
  intros Hro Hfst. induction l as [|x l IH]; simpl; [done|].
  unfold_M. specialize (Hfst x).
  pose proof (Hro x s1) as H1. pose proof (Hro x s2) as H2.
  destruct (body x s1) as [[y1|e1] t1], (body x s2) as [[y2|e2] t2];
    simpl in *; subst; try discriminate.
  - injection Hfst as ->.
    destruct (comprehension body l s1) as [[ys1|e1] t1],
             (comprehension body l s2) as [[ys2|e2] t2]; simpl in *; congruence.
  - by injection Hfst as ->.
Qed.

Lemma comprehension_first_raise (l1 : list A) (ys : list B) x e (l2 : list A) (s : T) :
  Forall2 (λ x y, body x s = (Ok y, s)) l1 ys →
  body x s = (Raise e, s) →
  comprehension body (l1 ++ x :: l2) s = (Raise e, s).
Proof.
  intros Hl1 Hx. induction Hl1 as [|x1 y1 l1 ys Hx1 _ IH]; simpl; unfold_M.
  - by rewrite Hx.
  - by rewrite Hx1, IH.
Qed.
End comprehension_more.

(** Every call of [getFlux] on a state either raises one error, whatever
    [units] is, or computes one array, which [units] wraps or not. *)
Lemma getFlux_cases st num :
  (∃ e, ∀ units, getFlux num units st = (Raise e, st)) ∨
  (∃ out, ∀ units, getFlux num units st =
     (Ok (if is_True units then WithUnit (mul_unit out erg_unit) else Plain out), st)).
Proof.
  unfold getFlux. unfold_M.
  destruct (self_data (self st)) as [tab|] eqn:Hdata; [|by left; eexists].
  destruct (Table.getitem tab num) as [d|e]; [|by left; eexists].
  destruct (self_filters (self st)) as [fs|]; [|by left; eexists].
  match goal with |- context [comprehension ?b fs st] =>
    pose proof (comprehension_readonly b fs st) as Hc;
    destruct (comprehension b fs st) as [[raw|e] s1] end.
  all: simpl in Hc; rewrite Hc.
  2, 4: intros ok s0; destruct (self_data (self s0)) as [t0|]; [|done];
        by destruct (Table.resolve_alias t0 ok).
  2: by left; eexists.
  destruct (self_vega_flux (self st)) as [vf|]; [|by left; eexists].
  destruct (np.multiply raw vf) as [flux|e]; [|by left; eexists].
  right. exists flux. intros units. by destruct (is_True units).
Qed.

(** X9. In every state, [units] decides the wrapping only: [getFlux]
    raises with [units] exactly when it raises without, with the same
    error, and returns the array it returns without, in a unit capsule
    when [units] is [True] and plain otherwise. *)
Theorem getFlux_units_any_state st num units :
  (∀ e, (getFlux num units st).1 = Raise e ↔
        (getFlux num (PyBool false) st).1 = Raise e) ∧
  (∀ out, (getFlux num (PyBool false) st).1 = Ok (Plain out) ↔
          (getFlux num units st).1 =
            Ok (if is_True units then WithUnit (mkQuantity out erg_unit)
                else Plain out)).
Proof.
  destruct (getFlux_cases st num) as [[e He]|[out Hout]].
  - rewrite (He units), (He (PyBool false)). simpl. split; [done|].
    intros out'. split; [done|]. by destruct (is_True units).
  - rewrite (Hout units), (Hout (PyBool false)). simpl. split.
    + intros e. split; [by destruct (is_True units)|done].
    + intros out'. unfold mul_unit. split.
      * by intros [= ->].
      * destruct (is_True units); by intros [= ->].
Qed.

(** X8. [getFlux] reads the data, the filter list and the Vega flux
    vector only: two states that agree on these three give the same
    result or the same error, whatever their distance modulus, bad value,
    description, file name and world are. *)
Theorem getFlux_reads_three st1 st2 num units :
  self_data (self st1) = self_data (self st2) →
  self_filters (self st1) = self_filters (self st2) →
  self_vega_flux (self st1) = self_vega_flux (self st2) →
  (getFlux num units st1).1 = (getFlux num units st2).1.
Proof.
  intros Hd Hf Hv. unfold getFlux. unfold_M. rewrite Hd.
  destruct (self_data (self st2)) as [tab|] eqn:Hdata; [|done].
  destruct (Table.getitem tab num) as [d|e]; [|done].
  rewrite Hf.
  destruct (self_filters (self st2)) as [fs|]; [|done].
  match goal with |- context [comprehension ?b fs st1] => set (body := b) end.
  assert (∀ ok s0, (body ok s0).2 = s0) as Hro.
  { intros ok s0. unfold body. destruct (self_data (self s0)) as [t0|]; [|done].
    by destruct (Table.resolve_alias t0 ok). }
  assert (∀ ok, (body ok st1).1 = (body ok st2).1) as Hag.
  { intros ok. unfold body. rewrite Hd, Hdata.
    by destruct (Table.resolve_alias tab ok). }
  pose proof (comprehension_agree body fs st1 st2 Hro Hag) as Hfst.
  pose proof (comprehension_readonly body fs st1 Hro) as H1.
  pose proof (comprehension_readonly body fs st2 Hro) as H2.
  destruct (comprehension body fs st1) as [[raw1|e1] s1],
           (comprehension body fs st2) as [[raw2|e2] s2];
    simpl in *; subst; try discriminate; [|by injection Hfst as ->].
  injection Hfst as ->. rewrite Hv.
  destruct (self_vega_flux (self st2)) as [vf|]; [|done].
  destruct (np.multiply raw2 vf); [|done].
  by destruct (is_True units).
Qed.

Lemma multiply_mismatch (a b : list float) :
  length a ≠ length b → length a ≠ 1%nat → length b ≠ 1%nat →
  np.multiply a b = Raise ValueError.
Proof.
  intros Hab Ha Hb. unfold np.multiply.
  destruct (Nat.eqb_spec (length a) (length b)) as [|_]; [done|].
  destruct a as [|x [|x' a]], b as [|y [|y' b]]; simpl in *; done.
Qed.

Lemma multiply_single_r (a : list float) (y : float) :
  np.multiply a [y] = Ok (map (λ x, PrimFloat.mul x y) a).
Proof. unfold np.multiply. by destruct a as [|x [|x' a]]. Qed.

Lemma multiply_single_l (x : float) (b : list float) :
  np.multiply [x] b = Ok (map (PrimFloat.mul x) b).
Proof. unfold np.multiply. by destruct b as [|y [|y' b]]. Qed.

Section getFlux_shapes.
Variables (st : St) (num : Z) (tab : Table.t) (d : Table.row).
Variables (fs : list string) (vf : list float).
Hypothesis Hdata : self_data (self st) = Some tab.
Hypothesis Hnum : 0 ≤ num.
Hypothesis Hrow : Table.rows tab !! Z.to_nat num = Some d.
Hypothesis Hfilters : self_filters (self st) = Some fs.
Hypothesis Hvega : self_vega_flux (self st) = Some vf.
Hypothesis Hcols :
  Forall (λ f, ∃ col x, Table.aliases tab !! f = Some col ∧ d !! col = Some x) fs.

Lemma getFlux_multiply :
  ∃ raw, reads tab d fs raw ∧
    ∀ units, getFlux num units st =
      match np.multiply raw vf with
      | Ok flux => (Ok (if is_True units then WithUnit (mul_unit flux erg_unit)
                        else Plain flux), st)
      | Raise e => (Raise e, st)
      end.
Proof.
  destruct (reads_exists _ _ _ Hcols) as [raw Hraw]. exists raw. split; [done|].
  intros units. unfold getFlux. unfold_M.
  rewrite Hdata, (getitem_in_range _ _ _ Hnum Hrow), Hfilters.
  erewrite (comprehension_Forall2 _ fs raw).
  - rewrite Hvega. destruct (np.multiply raw vf); [|done].
    by destruct (is_True units).
  - eapply Forall2_impl; [exact Hraw|].
    intros f x (col & Hcol & Hx). simpl. rewrite Hdata.
    unfold Table.resolve_alias, Table.row_getitem. by rewrite Hcol, Hx.
Qed.

(** X10. When the Vega flux vector and the filter list differ in length
    and neither has length one, [getFlux] at a readable row raises the
    shape error of the multiplication and returns no array. *)
Theorem getFlux_shape_mismatch units :
  length vf ≠ length fs → length vf ≠ 1%nat → length fs ≠ 1%nat →
  getFlux num units st = (Raise ValueError, st).
Proof.
  intros Hne Hvf Hfs. destruct getFlux_multiply as (raw & Hraw & Hrun).
  pose proof (reads_length _ _ _ _ Hraw) as Hlen.
  rewrite Hrun, multiply_mismatch; [done|lia..].
Qed.

(** X11. Arrays of length one are broadcast without an error.  With a
    Vega flux vector of one element, [getFlux] multiplies the rate of
    every filter by that element.  With one filter, [getFlux] returns one
    value per element of the Vega flux vector, the filter's rate times
    each of them, however many there are. *)
Theorem getFlux_broadcast :
  (∀ v, vf = [v] →
     ∃ raw, reads tab d fs raw ∧
       getFlux num (PyBool false) st
         = (Ok (Plain (map (λ x, PrimFloat.mul x v) raw)), st)) ∧
  (∀ f, fs = [f] →
     ∃ col x, Table.aliases tab !! f = Some col ∧ d !! col = Some x ∧
       getFlux num (PyBool false) st = (Ok (Plain (map (PrimFloat.mul x) vf)), st)).
Proof.
  destruct getFlux_multiply as (raw & Hraw & Hrun). split.
  - intros v ->. exists raw. split; [done|].
    by rewrite Hrun, multiply_single_r.
  - intros f ->. inversion Hraw as [|? x ? raw' (col & Hcol & Hx) Hnil]; subst.
    inversion Hnil; subst. exists col, x. do 2 (split; [done|]).
    by rewrite Hrun, multiply_single_l.
Qed.
End getFlux_shapes.

Lemma getFlux_raise_at st num tab d fs1 f fs2 units e :
  self_data (self st) = Some tab →
  0 ≤ num →
  Table.rows tab !! Z.to_nat num = Some d →
  self_filters (self st) = Some (fs1 ++ f :: fs2) →
  Forall (λ g, ∃ col x, Table.aliases tab !! g = Some col ∧ d !! col = Some x) fs1 →
  match Table.aliases tab !! f with
  | Some col => Table.row_getitem d col
  | None => Raise (KeyError f)
  end = Raise e →
  getFlux num units st = (Raise e, st).
Proof.
  intros Hdata Hnum Hrow Hfilters Hfs1 He.
  destruct (reads_exists _ _ _ Hfs1) as [raw Hraw].
  unfold getFlux. unfold_M.
  rewrite Hdata, (getitem_in_range _ _ _ Hnum Hrow), Hfilters.
  erewrite (comprehension_first_raise _ fs1 raw f e); [done| |].
  - eapply Forall2_impl; [exact Hraw|].
    intros g x (col & Hcol & Hx). simpl. rewrite Hdata.
    unfold Table.resolve_alias, Table.row_getitem. by rewrite Hcol, Hx.
  - simpl. rewrite Hdata. unfold Table.resolve_alias.
    destruct (Table.aliases tab !! f); by rewrite He.
Qed.

(** X12. [getFlux] raises at the first filter, in the order of the
    list, that cannot be read in the row: the lookup error of the filter
    name when it has no alias, that of the column when the row does not
    have it.  The filters after it and the Vega flux vector play no
    part. *)
Theorem getFlux_first_bad_filter st num tab d fs1 f fs2 units :
  self_data (self st) = Some tab →
  0 ≤ num →
  Table.rows tab !! Z.to_nat num = Some d →
  self_filters (self st) = Some (fs1 ++ f :: fs2) →
  Forall (λ g, ∃ col x, Table.aliases tab !! g = Some col ∧ d !! col = Some x) fs1 →
  (Table.aliases tab !! f = None →
   getFlux num units st = (Raise (KeyError f), st)) ∧
  (∀ col, Table.aliases tab !! f = Some col → d !! col = None →
   getFlux num units st = (Raise (KeyError col), st)).
Proof.
  intros Hdata Hnum Hrow Hfilters Hfs1. split.
  - intros Hf. eapply getFlux_raise_at; try done. by rewrite Hf.
  - intros col Hf Hcol. eapply getFlux_raise_at; try done.
    rewrite Hf. unfold Table.row_getitem. by rewrite Hcol.
Qed.

(** * The constructor and getFlux together *)


(** A catalog built from distinct filters: its parts, with the alias of
    the filter at each position. *)
Lemma new_NoDup file dm F w c w' :
  GenFluxCatalog_new file dm F w = (Ok c, w') →
  NoDup F →
  ∃ tab tab' db es,
    catalog_files w !! file = Some tab ∧ vega_file w = Some db ∧ vega_has db F es ∧
    self_data c = Some tab' ∧ Table.rows tab' = Table.rows tab ∧
    self_filters c = Some F ∧ self_vega_flux c = Some (map vega_fnu es) ∧
    ∀ j f, F !! j = Some f →
      ∃ col, obs_colnames !! j = Some col ∧ Table.aliases tab' !! f = Some col.
Proof.
  intros Hnew Hnd.
  destruct (new_inv _ _ _ _ _ _ Hnew) as (tab & db & es & Hfile & Hvega & Hes & Hlen).
  destruct (new_ok file dm F w tab db es) as (tab' & Hnew' & Hrows & _ & Hin); try done.
  rewrite Hnew in Hnew'. injection Hnew' as -> ->. simpl.
  exists tab, tab', db, es. do 7 (split; [done|]).
  intros j f Hj.
  destruct (lookup_lt_is_Some_2 obs_colnames j) as [col Hcol].
  { apply lookup_lt_Some in Hj. lia. }
  exists col. split; [done|]. rewrite <- Hcol. apply Hin; [done|].
  intros j' Hlt Hj'. pose proof (NoDup_lookup _ _ _ _ Hnd Hj Hj'). lia.
Qed.

(** X13. On a catalog built from distinct filters, [getFlux] at a row
    in range reads the columns by position: the value at position [j] is
    the rate in the column [obs_colnames[j]] times the Vega flux of the
    filter at position [j], whatever the name of that filter is.  It
    returns as soon as the row has the first [len(filters)] columns of
    [obs_colnames]. *)
Theorem new_then_getFlux file dm F w c w' tab num d w2 :
  GenFluxCatalog_new file dm F w = (Ok c, w') →
  NoDup F →
  catalog_files w !! file = Some tab →
  0 ≤ num →
  Table.rows tab !! Z.to_nat num = Some d →
  (∀ j col, (j < length F)%nat → obs_colnames !! j = Some col → is_Some (d !! col)) →
  ∃ out,
    getFlux num (PyBool false) (mkSt c w2) = (Ok (Plain out), mkSt c w2) ∧
    length out = length F ∧
    ∀ j f, F !! j = Some f →
      ∃ col x db e,
        obs_colnames !! j = Some col ∧ d !! col = Some x ∧
        vega_file w = Some db ∧ db !! f = Some e ∧
        out !! j = Some (PrimFloat.mul x (vega_fnu e)).
Proof.
  intros Hnew Hnd Hfile Hnum Hrow Hd.
  destruct (new_NoDup _ _ _ _ _ _ Hnew Hnd)
    as (tab0 & tab' & db & es & Hfile0 & Hvega & Hes & Hdata & Hrows & Hfs & Hvf & Hal).
  rewrite Hfile in Hfile0. injection Hfile0 as <-.
  assert (length (map vega_fnu es) = length F) as Hlen
    by (rewrite length_map; by eapply vega_has_length).
  destruct (getFlux_run (mkSt c w2) num tab' d F (map vega_fnu es))
    as (raw & Hraw & Hrun); try done.
  { by rewrite Hrows. }
  { apply Forall_forall. intros f Hf. apply list_elem_of_lookup in Hf as [j Hj].
    destruct (Hal j f Hj) as (col & Hcol & Ha).
    destruct (Hd j col) as [x Hx]; [by eapply lookup_lt_Some|done|]. by exists col, x. }
  exists (zip_with PrimFloat.mul raw (map vega_fnu es)).
  split; [exact (Hrun (PyBool false))|]. split.
  - rewrite length_zip_with, (reads_length _ _ _ _ Hraw), Hlen. lia.
  - intros j f Hj.
    destruct (reads_zip_lookup tab' d F _ Hlen raw j f Hraw Hj)
      as (col & x & v & Ha & Hx & Hv & Hout).
    destruct (Hal j f Hj) as (col' & Hcol' & Ha').
    rewrite Ha in Ha'. injection Ha' as <-.
    destruct (Forall2_lookup_l _ _ _ _ _ Hes Hj) as (e & He & Hdb).
    rewrite list_lookup_fmap, He in Hv. injection Hv as <-.
    by exists col, x, db, e.
Qed.


(** * setFilters after the constructor *)

(** X15. [setFilters] establishes no alias, so a filter that was not
    given to the constructor cannot be read afterwards: when
    [setFilters] is given such a filter in first place (one the Vega
    source knows and the loaded file has no alias for), it returns, and
    from then on [getFlux] raises the lookup error of that filter at
    every row in range. *)
Theorem setFilters_new_filter_unreadable file dm F w c w1 tab f F2 es w2 db num d units :
  GenFluxCatalog_new file dm F w = (Ok c, w1) →
  catalog_files w !! file = Some tab →
  f ∉ F →
  Table.aliases tab !! f = None →
  vega_file w2 = Some db →
  vega_has db (f :: F2) es →
  0 ≤ num →
  Table.rows tab !! Z.to_nat num = Some d →
  ∃ st', setFilters (f :: F2) (mkSt c w2) = (Ok tt, st') ∧
         self_filters (self st') = Some (f :: F2) ∧
         getFlux num units st' = (Raise (KeyError f), st').
Proof.
  intros Hnew Hfile Hf Hnone Hvega Hes Hnum Hrow.
  destruct (new_inv _ _ _ _ _ _ Hnew) as (tab0 & db0 & es0 & Hfile0 & Hvega0 & Hes0 & Hlen).
  rewrite Hfile in Hfile0. injection Hfile0 as <-.
  destruct (new_ok file dm F w tab db0 es0) as (tab' & Hnew' & Hrows & Hout & _); try done.
  rewrite Hnew in Hnew'. injection Hnew' as -> ->.
  eexists. split.
  { rewrite setFilters_run. cbn [world self]. rewrite Hvega.
    by rewrite (proj2 (lookup_all_Ok _ _ _) Hes). }
  split; [done|].
  apply (getFlux_raise_at _ num tab' d [] f F2); simpl; try done.
  - by rewrite Hrows.
  - by rewrite (Hout f Hf), Hnone.
Qed.

(** X16. On a catalog the constructor returned, [setFilters] with the
    filters of the construction returns and leaves the instance exactly
    as it was; only the Vega source is used once more. *)
Theorem setFilters_same_filters file dm F w c w1 w2 :
  GenFluxCatalog_new file dm F w = (Ok c, w1) →
  vega_file w2 = vega_file w →
  setFilters F (mkSt c w2) = (Ok tt, mkSt c (after_vega F w2)).
Proof.
  intros Hnew Hw2.
  destruct (new_inv _ _ _ _ _ _ Hnew) as (tab & db & es & Hfile & Hvega & Hes & Hlen).
  destruct (new_ok file dm F w tab db es) as (tab' & Hnew' & _); try done.
  rewrite Hnew in Hnew'. injection Hnew' as -> ->.
  rewrite setFilters_run. simpl. rewrite Hw2, Hvega.
  by rewrite (proj2 (lookup_all_Ok _ _ _) Hes).
Qed.

(** * The further properties at work *)

Ltac phat_columns :=
  unfold filters, phat_two; each_filter ltac:(eexists _, _; split; by_running).

Lemma get_obscat_succeeds_iff_witness :
  ∃ c w', get_obscat obsfile distanceModulus filters phat_world = (Ok c, w').
Proof.
  apply (proj2 (get_obscat_succeeds_iff obsfile distanceModulus filters phat_world)).
  eexists (Table.mk phat_rows ∅), phat_vega, _.
  split; [by_running|]. split; [reflexivity|]. split.
  - unfold vega_has, filters. each_filter ltac:(by_running).
  - vm_compute. lia.
Defined.

Lemma new_attributes_witness :
  self_inputFile (self phat_st) = Some obsfile ∧
  self_distanceModulus (self phat_st) = Some distanceModulus ∧
  self_desc (self phat_st) = Some ("GENERIC star: " +:+ obsfile)%string ∧
  self_filters (self phat_st) = Some filters ∧
  self_badvalue (self phat_st) = Some 6e-40%float ∧
  ∃ tab tab' vf,
    catalog_files phat_world !! obsfile = Some tab ∧
    self_data (self phat_st) = Some tab' ∧ Table.rows tab' = Table.rows tab ∧
    self_vega_flux (self phat_st) = Some vf ∧ length vf = length filters.
Proof.
  apply (new_attributes obsfile distanceModulus filters phat_world
           (self phat_st) (world phat_st)).
  by_running.
Defined.

Lemma new_too_many_filters_witness :
  GenFluxCatalog_new obsfile distanceModulus (filters ++ ["HST_WFC3_F275W"%string])
    phat_world
  = (Raise (IndexError 6), after_vega (filters ++ ["HST_WFC3_F275W"%string]) phat_world).
Proof.
  eapply (new_too_many_filters obsfile distanceModulus _ phat_world
            (Table.mk phat_rows ∅) phat_vega).
  - by_running.
  - reflexivity.
  - unfold vega_has, filters. cbn [app]. each_filter ltac:(by_running).
  - vm_compute. lia.
Defined.

Lemma new_resource_errors_witness :
  GenFluxCatalog_new "missing.fits" distanceModulus filters phat_world
    = (Raise (IOError "missing.fits"), phat_world) ∧
  GenFluxCatalog_new obsfile distanceModulus filters phat_world_novega
    = (Raise (IOError "vega"), phat_world_novega).
Proof.
  split.
  - apply (proj1 (new_resource_errors "missing.fits" distanceModulus filters phat_world)).
    by_running.
  - apply (proj2 (new_resource_errors obsfile distanceModulus filters phat_world_novega)
             (Table.mk phat_rows ∅)); by_running.
Defined.


Lemma setFilters_failure_state_witness :
  self_filters (self phat_st_failed) = Some ["HST_WFC3_F275W"%string; f225w] ∧
  self_vega_flux (self phat_st_failed) = self_vega_flux (self phat_st) ∧
  self_data (self phat_st_failed) = self_data (self phat_st) ∧
  self_badvalue (self phat_st_failed) = self_badvalue (self phat_st).
Proof.
  apply (setFilters_failure_state ["HST_WFC3_F275W"%string; f225w] phat_st
           (KeyError f225w) phat_st_failed).
  by_running.
Defined.

Lemma setFilters_last_wins_witness :
  ∃ st2', setFilters ["HST_WFC3_F336W"%string] phat_st = (Ok tt, st2') ∧
          self st2' = self (setFilters ["HST_WFC3_F336W"%string] phat_st_failed).2.
Proof.
  apply (setFilters_last_wins ["HST_WFC3_F275W"%string; f225w] ["HST_WFC3_F336W"%string]
           phat_st (setFilters ["HST_WFC3_F336W"%string] phat_st_failed).2).
  by_running.
Defined.

Lemma getFlux_reads_three_witness :
  (getFlux 1 (PyBool true) phat_st).1
    = (getFlux 1 (PyBool true) (mkSt (set_badvalue 0 (self phat_st)) phat_world)).1.
Proof.
  apply (getFlux_reads_three phat_st (mkSt (set_badvalue 0 (self phat_st)) phat_world));
    reflexivity.
Defined.

Lemma getFlux_units_any_state_witness :
  (getFlux 0 (PyStr "yes") phat_st2).1 = Ok (Plain [2.4e-12; 1.7e-10]%float).
Proof.
  apply (proj1 (proj2 (getFlux_units_any_state phat_st2 0 (PyStr "yes")) _)).
  by_running.
Defined.

Lemma getFlux_shape_mismatch_witness :
  getFlux 0 (PyBool false) phat_st_2_6 = (Raise ValueError, phat_st_2_6).
Proof.
  apply (getFlux_shape_mismatch phat_st_2_6 0 phat_tab phat_d phat_two phat_vf).
  - by_running.
  - lia.
  - reflexivity.
  - by_running.
  - by_running.
  - phat_columns.
  - vm_compute. lia.
  - vm_compute. lia.
  - vm_compute. lia.
Defined.

Lemma getFlux_broadcast_witness :
  (∃ raw, reads phat_tab phat_d filters raw ∧
     getFlux 0 (PyBool false) phat_st_6_1
       = (Ok (Plain (map (λ x, PrimFloat.mul x 2) raw)), phat_st_6_1)) ∧
  (∃ col x, Table.aliases phat_tab !! "HST_WFC3_F275W"%string = Some col ∧
     phat_d !! col = Some x ∧
     getFlux 0 (PyBool false) phat_st_1_6
       = (Ok (Plain (map (PrimFloat.mul x) phat_vf)), phat_st_1_6)).
Proof.
  split.
  - apply (proj1 (getFlux_broadcast phat_st_6_1 0 phat_tab phat_d filters [2%float]
                    ltac:(by_running) ltac:(lia) ltac:(reflexivity) ltac:(by_running)
                    ltac:(by_running) ltac:(phat_columns))).
    reflexivity.
  - apply (proj2 (getFlux_broadcast phat_st_1_6 0 phat_tab phat_d
                    ["HST_WFC3_F275W"%string] phat_vf
                    ltac:(by_running) ltac:(lia) ltac:(reflexivity) ltac:(by_running)
                    ltac:(by_running) ltac:(phat_columns))).
    reflexivity.
Defined.

Lemma getFlux_first_bad_filter_witness :
  getFlux 0 (PyBool false) phat_st_failed = (Raise (KeyError f225w), phat_st_failed) ∧
  getFlux 0 (PyBool false) short_st = (Raise (KeyError "f336w_rate"), short_st).
Proof.
  split.
  - apply (proj1 (getFlux_first_bad_filter phat_st_failed 0 phat_tab phat_d
                    ["HST_WFC3_F275W"%string] f225w [] (PyBool false)
                    ltac:(by_running) ltac:(lia) ltac:(reflexivity) ltac:(by_running)
                    ltac:(phat_columns))).
    by_running.
  - apply (proj2 (getFlux_first_bad_filter short_st 0 short_tab short_d
                    ["HST_WFC3_F275W"%string] "HST_WFC3_F336W" [] (PyBool false)
                    ltac:(by_running) ltac:(lia) ltac:(reflexivity) ltac:(by_running)
                    ltac:(phat_columns)) "f336w_rate"%string); by_running.
Defined.

Lemma new_then_getFlux_witness :
  ∃ out,
    getFlux 0 (PyBool false) (mkSt (self phat_st) phat_world)
      = (Ok (Plain out), mkSt (self phat_st) phat_world) ∧
    length out = length filters ∧
    ∀ j f, filters !! j = Some f →
      ∃ col x db e,
        obs_colnames !! j = Some col ∧ phat_d !! col = Some x ∧
        vega_file phat_world = Some db ∧ db !! f = Some e ∧
        out !! j = Some (PrimFloat.mul x (vega_fnu e)).
Proof.
  apply (new_then_getFlux obsfile distanceModulus filters phat_world (self phat_st)
           (world phat_st) (Table.mk phat_rows ∅) 0 phat_d phat_world).
  - by_running.
  - by_deciding.
  - by_running.
  - lia.
  - reflexivity.
  - intros j col _ Hcol.
    do 6 (destruct j as [|j]; [injection Hcol as <-; eexists; by_running|]).
    discriminate Hcol.
Defined.


Lemma setFilters_new_filter_unreadable_witness :
  ∃ st', setFilters [f225w; "HST_WFC3_F275W"%string] (mkSt (self phat_st) wide_world)
           = (Ok tt, st') ∧
         self_filters (self st') = Some [f225w; "HST_WFC3_F275W"%string] ∧
         getFlux 0 (PyBool false) st' = (Raise (KeyError f225w), st').
Proof.
  eapply (setFilters_new_filter_unreadable obsfile distanceModulus filters phat_world
            (self phat_st) (world phat_st) (Table.mk phat_rows ∅) f225w
            ["HST_WFC3_F275W"%string] _ wide_world wide_vega 0 phat_d).
  - by_running.
  - by_running.
  - by_deciding.
  - by_running.
  - reflexivity.
  - unfold vega_has. each_filter ltac:(by_running).
  - lia.
  - reflexivity.
Defined.

Lemma setFilters_same_filters_witness :
  setFilters filters (mkSt (self phat_st) (world phat_st2))
    = (Ok tt, mkSt (self phat_st) (after_vega filters (world phat_st2))).
Proof.
  apply (setFilters_same_filters obsfile distanceModulus filters phat_world
           (self phat_st) (world phat_st) (world phat_st2)).
  - by_running.
  - reflexivity.
Defined.
